(** * generate-nft-gif: the generation engine of [index.py]

    A shallow embedding of [CharacterGenerator] (layer selection, DNA
    fingerprinting, the uniqueness registry, the PNG and GIF compositing
    paths, [generate_character], [generate_collection] and [main]) together
    with the properties of the engine.

    Conventions.
    - A Python [str] is modelled by its UTF-8 byte string ([string]); the
      only case mapping the code needs ([str.lower] before a comparison
      with an ASCII suffix) acts on ASCII letters. File names are valid
      UTF-8, so that [str.encode] returns their bytes.
    - Python [int] is [Z].
    - A Python [dict] is an insertion-ordered association list with
      in-place update of an existing key ([dict_set]).
    - [self.generated_dnas], a Python [set] of strings, is a [gset string].
    - Exceptions are values of [exn]; a call returns a [result] paired with
      the state it leaves behind, so that the mutations done before a
      [raise] stay visible. *)

From Stdlib Require Import ZArith Ascii String DecimalString List.
From Stdlib Require DecimalZ DecimalPos.
From stdpp Require Import gmap strings list.
Import ListNotations.
Local Open Scope string_scope.
Local Open Scope Z_scope.

(** ** Python string helpers *)

Module PyStr.

(** [c.lower()] on one byte: ASCII upper-case letters only. *)
Definition lower_ascii (c : ascii) : ascii :=
  let n := nat_of_ascii c in
  if ((65 <=? n)%nat && (n <=? 90)%nat)%bool then ascii_of_nat (n + 32) else c.

(** [s.lower()] *)
Fixpoint lower (s : string) : string :=
  match s with
  | EmptyString => EmptyString
  | String c r => String (lower_ascii c) (lower r)
  end.

(** [s.startswith(p)] *)
Definition startswith (p s : string) : bool := String.prefix p s.

(** [s.endswith(p)] *)
Definition endswith (p s : string) : bool :=
  let n := String.length s in
  let m := String.length p in
  ((m <=? n)%nat && String.eqb (String.substring (n - m) m s) p)%bool.

(** [s.endswith(('.png', '.gif'))] : a tuple of suffixes *)
Definition endswith_any (ps : list string) (s : string) : bool :=
  existsb (fun p => endswith p s) ps.

(** [s.rfind(c)] for a one-character needle, as an [option] instead of
    [-1]; the index counts from the start of [s]. *)
Fixpoint rfind (c : ascii) (s : string) : option nat :=
  match s with
  | EmptyString => None
  | String d r =>
      match rfind c r with
      | Some i => Some (S i)
      | None => if Ascii.eqb d c then Some 0%nat else None
      end
  end.

(** [s[i:]] *)
Definition drop (i : nat) (s : string) : string :=
  String.substring i (String.length s - i) s.

(** [s[:i]] *)
Definition take (i : nat) (s : string) : string := String.substring 0 i s.

(** [s.split('.')[-1]]: what follows the last dot, or all of [s]. *)
Definition after_last_dot (s : string) : string :=
  match rfind "." s with
  | Some i => drop (S i) s
  | None => s
  end.

(** [str(n)] and the [{n}] of an f-string for an [int]. *)
Definition of_int (n : Z) : string := NilZero.string_of_int (Z.to_int n).

(** ['|'.join(parts)] and friends. *)
Fixpoint join (sep : string) (parts : list string) : string :=
  match parts with
  | [] => ""
  | [p] => p
  | p :: rest => p ++ sep ++ join sep rest
  end.

End PyStr.

(** ** [os.path] on POSIX *)

Module OsPath.

(** [os.path.join(a, b)], [posixpath] version: an absolute [b] replaces
    [a]; no separator is added after an empty [a] or one that already
    ends in a slash. *)
Definition join (a b : string) : string :=
  if PyStr.startswith "/" b then b
  else if (String.eqb a "" || PyStr.endswith "/" a)%bool then a ++ b
  else a ++ "/" ++ b.

Definition join3 (a b c : string) : string := join (join a b) c.

(** Are all characters of [p] at the positions [from .. upto-1] dots? *)
Fixpoint all_dots (p : string) (from upto : nat) : bool :=
  match p with
  | EmptyString => true
  | String c r =>
      match upto with
      | O => true
      | S upto' =>
          match from with
          | O => (Ascii.eqb c "." && all_dots r 0 upto')%bool
          | S from' => all_dots r from' upto'
          end
      end
  end.

(** [os.path.splitext(p)] ([genericpath._splitext] with [sep = '/']):
    the extension starts at the last dot, provided that dot comes after
    the last slash and is preceded, within the last path component, by
    a character that is not a dot. *)
Definition splitext (p : string) : string * string :=
  let sep_next := match PyStr.rfind "/" p with Some i => S i | None => 0%nat end in
  match PyStr.rfind "." p with
  | Some dot =>
      if ((sep_next <=? dot)%nat && negb (all_dots p sep_next dot))%bool
      then (PyStr.take dot p, PyStr.drop dot p)
      else (p, "")
  | None => (p, "")
  end.

End OsPath.

(** ** [hashlib.sha1]

    SHA-1 (FIPS 180-4) over the bytes of the string; 32-bit words are [Z]
    with the wrap-around written out. [hexdigest] prints the five state
    words as 40 lower-case hexadecimal digits. *)

Module Sha1.

Definition mask32 : Z := 0xFFFFFFFF.
Definition add32 (a b : Z) : Z := Z.land (a + b) mask32.
Definition rotl32 (n a : Z) : Z :=
  Z.land (Z.lor (Z.shiftl a n) (Z.shiftr a (32 - n))) mask32.
Definition not32 (a : Z) : Z := Z.lxor a mask32.

Fixpoint bytes_of_string (s : string) : list Z :=
  match s with
  | EmptyString => []
  | String c r => Z.of_nat (nat_of_ascii c) :: bytes_of_string r
  end.

(** big-endian encoding of [v] on [n] bytes *)
Fixpoint be_bytes (n : nat) (v : Z) : list Z :=
  match n with
  | O => []
  | S n' => Z.land (Z.shiftr v (8 * Z.of_nat n')) 0xFF :: be_bytes n' v
  end.

(** message, then 0x80, then zeros up to 56 mod 64, then the bit length
    on 8 bytes *)
Definition pad (msg : list Z) : list Z :=
  let len := Z.of_nat (length msg) in
  let zeros := Z.to_nat ((55 - len) mod 64) in
  msg ++ [0x80] ++ repeat 0 zeros ++ be_bytes 8 (8 * len).

Fixpoint words_of_bytes (fuel : nat) (bs : list Z) : list Z :=
  match fuel, bs with
  | S fuel', a :: b :: c :: d :: rest =>
      Z.lor (Z.shiftl a 24) (Z.lor (Z.shiftl b 16) (Z.lor (Z.shiftl c 8) d))
        :: words_of_bytes fuel' rest
  | _, _ => []
  end.

(** Message schedule, kept newest word first: [w[t] = rotl 1 (w[t-3] ^
    w[t-8] ^ w[t-14] ^ w[t-16])]. *)
Fixpoint schedule (n : nat) (rev_w : list Z) : list Z :=
  match n with
  | O => rev_w
  | S n' =>
      let w := rotl32 1 (Z.lxor (Z.lxor (nth 2 rev_w 0) (nth 7 rev_w 0))
                                (Z.lxor (nth 13 rev_w 0) (nth 15 rev_w 0))) in
      schedule n' (w :: rev_w)
  end.

Definition round_f (t : nat) (b c d : Z) : Z :=
  if (t <? 20)%nat then Z.lor (Z.land b c) (Z.land (not32 b) d)
  else if (t <? 40)%nat then Z.lxor b (Z.lxor c d)
  else if (t <? 60)%nat then Z.lor (Z.land b c) (Z.lor (Z.land b d) (Z.land c d))
  else Z.lxor b (Z.lxor c d).

Definition round_k (t : nat) : Z :=
  if (t <? 20)%nat then 0x5A827999
  else if (t <? 40)%nat then 0x6ED9EBA1
  else if (t <? 60)%nat then 0x8F1BBCDC
  else 0xCA62C1D6.

Record state := St { ha : Z; hb : Z; hc : Z; hd : Z; he : Z }.

Definition init : state :=
  St 0x67452301 0xEFCDAB89 0x98BADCFE 0x10325476 0xC3D2E1F0.

Fixpoint rounds (t : nat) (ws : list Z) (s : state) : state :=
  match ws with
  | [] => s
  | w :: ws' =>
      let tmp := add32 (add32 (add32 (add32 (rotl32 5 (ha s))
                   (round_f t (hb s) (hc s) (hd s))) (he s)) (round_k t)) w in
      rounds (S t) ws' (St tmp (ha s) (rotl32 30 (hb s)) (hc s) (hd s))
  end.

Definition compress (s : state) (block : list Z) : state :=
  let w := rev (schedule 64 (rev block)) in
  let r := rounds 0 w s in
  St (add32 (ha s) (ha r)) (add32 (hb s) (hb r)) (add32 (hc s) (hc r))
     (add32 (hd s) (hd r)) (add32 (he s) (he r)).

Fixpoint blocks (fuel : nat) (ws : list Z) (s : state) : state :=
  match fuel, ws with
  | S fuel', _ :: _ => blocks fuel' (skipn 16 ws) (compress s (firstn 16 ws))
  | _, _ => s
  end.

Definition hex_digit (d : Z) : ascii :=
  ascii_of_nat (Z.to_nat (if d <? 10 then 48 + d else 87 + d)).

Fixpoint hex_word (n : nat) (w : Z) : string :=
  match n with
  | O => EmptyString
  | S n' => String (hex_digit (Z.land (Z.shiftr w (4 * Z.of_nat n')) 0xF)) (hex_word n' w)
  end.

(** [hashlib.sha1(s.encode()).hexdigest()] *)
Definition hexdigest (s : string) : string :=
  let bs := pad (bytes_of_string s) in
  let ws := words_of_bytes (length bs) bs in
  let r := blocks (length ws) ws init in
  (hex_word 8 (ha r) ++ hex_word 8 (hb r) ++ hex_word 8 (hc r)
     ++ hex_word 8 (hd r) ++ hex_word 8 (he r))%string.

End Sha1.

(** ** Data model *)

(** A Python [dict] with string keys: the items in insertion order. *)
Definition dict (V : Type) : Type := list (string * V).

(** [d[k] = v]: an existing key keeps its place, a new key goes last. *)
Fixpoint dict_set {V} (d : dict V) (k : string) (v : V) : dict V :=
  match d with
  | [] => [(k, v)]
  | (k', v') :: r =>
      if String.eqb k' k then (k', v) :: r else (k', v') :: dict_set r k v
  end.

(** [d.get(k)] *)
Fixpoint dict_get {V} (d : dict V) (k : string) : option V :=
  match d with
  | [] => None
  | (k', v') :: r => if String.eqb k' k then Some v' else dict_get r k
  end.

(** [k in d] *)
Definition dict_mem {V} (d : dict V) (k : string) : bool :=
  match dict_get d k with Some _ => true | None => false end.

(** [d.items()], [d.keys()], [d.values()] *)
Definition items {V} (d : dict V) : list (string * V) := d.
Definition keys {V} (d : dict V) : list string := map fst d.
Definition values {V} (d : dict V) : list V := map snd d.

(** The dictionary returned by [_select_layer_file]. *)
Record layer_file := LayerFile {
  path : string;
  type : string;
  filename : string
}.

(** The exceptions the engine can meet. [ValueError] stands for the
    class and its subclasses, which [except ValueError] catches alike;
    [OSError] for the failure to read a file; [OtherError] for an
    exception of any other class, by the name of the class, such as
    Pillow's [DecompressionBombError]. *)
Inductive exn :=
| ValueError (msg : string)
| TypeError (msg : string)
| IndexError (msg : string)
| OSError (file : string)
| OtherError (class_name msg : string).

(** How Pillow fails on a file it cannot turn into an image.
    [Image.open] reads the header only, so a file fails either there or
    later, when its pixels are decoded ([convert], the frame iterator).
    Which exception is raised is Pillow's choice: it can be of any
    class, [ValueError] included. *)
Inductive failure :=
| FailsAtOpen (e : exn)
| FailsAtLoad (e : exn).

Inductive result (A : Type) :=
| Ok (a : A)
| Raise (e : exn).
Arguments Ok {A} a.
Arguments Raise {A} e.

(** Pillow images, as the expression that built them: the engine only
    opens, converts, allocates and pastes, and what it saves is determined
    by these calls. *)
Inductive image :=
| Frame (file : string) (n : nat)       (* frame [n] of an opened file *)
| ConvertRGBA (im : image)              (* [im.convert("RGBA")] *)
| NewRGBA (size_of : image)             (* [Image.new("RGBA", im.size, (0, 0, 0, 0))] *)
| Paste (canvas im : image)             (* [canvas.paste(im, (0, 0))] *)
| PasteMask (canvas im mask : image).   (* [canvas.paste(im, (0, 0), mask)] *)

(** What [Image.open] finds in a readable file: one entry per frame,
    holding the frame's delay in milliseconds when the frame declares one,
    and the loop count when the file declares one. *)
Record image_file := ImageFile {
  frame_durations : list (option Z);
  loop : option Z
}.

(** What is handed to [Image.save]. *)
Inductive artifact :=
| SavedPng (im : image)
| SavedGif (first : image) (append_images : list image) (duration : Z) (loop_count : Z).

(** The metadata dictionary of one edition; [attributes] is the list of
    [{"trait_type": .., "value": ..}] entries. *)
Record metadata := Metadata {
  name : string;
  description : string;
  image_uri : string;
  dna : string;
  edition_no : Z;
  date : Z;
  attributes : list (string * string);
  compiler : string
}.

(** [config.json] *)
Record config := Config {
  collection_name : string;
  collection_description : string;
  ipfs_base_uri : string;
  compiler_tag : string;
  base_layers_directory : option string;
  output_directory : option string;
  layers_order : option (list string);
  total_characters : Z;
  max_generation_attempts : Z
}.

(** What the engine reads from outside. The layer tree is read-only
    during a run and holds directories only, each of which can be listed,
    so that [os.listdir] returns for every path that exists:
    [listdir d = None] when [os.path.exists(d)] is false. [open_image f]
    is the image Pillow makes of the file [f], and [None] for a file
    Pillow fails on; [open_failure f] then tells where and with which
    exception. [draws k] is the [k]-th number the random generator hands
    out and [now_ms k] the [k]-th reading of the clock in milliseconds. *)
Record environment := Environment {
  listdir : string -> option (list string);
  open_image : string -> option image_file;
  draws : nat -> nat;
  now_ms : nat -> Z;
  open_failure : string -> failure
}.

(** The immutable part of [self], with the outside it runs against. *)
Record CharacterGenerator := Generator {
  cfg : config;
  os : environment
}.

Definition base_dir (self : CharacterGenerator) : string :=
  default "nft_layers" (base_layers_directory (cfg self)).
Definition output_dir (self : CharacterGenerator) : string :=
  default "output" (output_directory (cfg self)).

(** The mutable state: [self.generated_dnas], how many random draws and
    clock readings were made, and what was written. *)
Record world := World {
  generated_dnas : gset string;
  rng_pos : nat;
  clock_pos : nat;
  saved_images : list (string * artifact);
  saved_json : list (string * metadata);
  stdout : list string
}.

(** The state right after [__init__]. *)
Definition fresh : world := World ∅ 0 0 [] [] [].

Definition add_dna (d : string) (w : world) : world :=
  World ({[d]} ∪ generated_dnas w) (rng_pos w) (clock_pos w)
        (saved_images w) (saved_json w) (stdout w).
Definition tick_rng (w : world) : world :=
  World (generated_dnas w) (S (rng_pos w)) (clock_pos w)
        (saved_images w) (saved_json w) (stdout w).
Definition tick_clock (w : world) : world :=
  World (generated_dnas w) (rng_pos w) (S (clock_pos w))
        (saved_images w) (saved_json w) (stdout w).
Definition save_image (p : string) (a : artifact) (w : world) : world :=
  World (generated_dnas w) (rng_pos w) (clock_pos w)
        (saved_images w ++ [(p, a)]) (saved_json w) (stdout w).
Definition save_json (p : string) (m : metadata) (w : world) : world :=
  World (generated_dnas w) (rng_pos w) (clock_pos w)
        (saved_images w) (saved_json w ++ [(p, m)]) (stdout w).
Definition print (line : string) (w : world) : world :=
  World (generated_dnas w) (rng_pos w) (clock_pos w)
        (saved_images w) (saved_json w) (stdout w ++ [line]).

(** A method call: it returns or raises, and leaves a state behind. *)
Definition M (A : Type) : Type := world -> result A * world.

(** ** The parts of Pillow and [random] the engine calls *)

Module PIL.

(** [ImageSequence.Iterator(im)]: the frames of the file, in order. *)
Definition frames_of (file : string) (f : image_file) : list image :=
  map (Frame file) (seq 0 (length (frame_durations f))).

(** [im.info.get('duration', dflt)] once the iterator has run through
    the file: the GIF plugin keeps in [info] the delay of the frame the
    image is positioned on, which is then the last one. *)
Definition info_duration_after_iteration (f : image_file) (dflt : Z) : Z :=
  match last (frame_durations f) with
  | Some (Some d) => d
  | _ => dflt
  end.

(** [Image.open(f)] alone: the exception it raises, if it raises. *)
Definition open_raises (env : environment) (f : string) : option exn :=
  match open_image env f with
  | Some _ => None
  | None =>
      match open_failure env f with
      | FailsAtOpen e => Some e
      | FailsAtLoad _ => None
      end
  end.

(** [Image.open(f)] followed by the decoding of the file (by
    [convert("RGBA")], or by running through its frames): the image, or
    the exception of whichever step fails. *)
Definition decoded (env : environment) (f : string) : result image_file :=
  match open_image env f with
  | Some im => Ok im
  | None =>
      Raise match open_failure env f with
            | FailsAtOpen e => e
            | FailsAtLoad e => e
            end
  end.

End PIL.

(** [random.choice(seq)] for a non-empty [seq]: the element at a drawn
    index below [len(seq)]. *)
Definition random_choice (self : CharacterGenerator) (seq : list string) (w : world)
  : string * world :=
  (nth (draws (os self) (rng_pos w) mod length seq)%nat seq "", tick_rng w).

(** ** The engine *)

(** [_generate_dna_hash(self, layers)] *)
Definition dna_string (layers : dict layer_file) : string :=
  PyStr.join "|" (map (fun kv => fst kv ++ ":" ++ path (snd kv)) (items layers)).

Definition _generate_dna_hash (layers : dict layer_file) : string :=
  Sha1.hexdigest (dna_string layers).

(** The list comprehension of [_select_layer_file]. *)
Definition eligible (f : string) : bool :=
  PyStr.endswith_any [".png"; ".gif"] (PyStr.lower f).

(** [_select_layer_file(self, layer_name)]; [None] is Python's [None]. *)
Definition _select_layer_file (self : CharacterGenerator) (layer_name : string)
    (w : world) : option layer_file * world :=
  let layer_dir := OsPath.join (base_dir self) layer_name in
  match listdir (os self) layer_dir with
  | None => (None, w)
  | Some entries =>
      let layer_files := List.filter eligible entries in
      match layer_files with
      | [] => (None, w)
      | _ :: _ =>
          let '(selected_file, w1) := random_choice self layer_files w in
          let file_path := OsPath.join layer_dir selected_file in
          let file_type := PyStr.drop 1 (PyStr.lower (snd (OsPath.splitext selected_file))) in
          (Some (LayerFile file_path file_type selected_file), w1)
      end
  end.

(** The selection loop at the head of every attempt of
    [generate_character]: [selected_layers = {}], then one call of
    [_select_layer_file] per entry of [layers_order]. *)
Fixpoint select_into (self : CharacterGenerator) (order : list string)
    (selected_layers : dict layer_file) (w : world) : dict layer_file * world :=
  match order with
  | [] => (selected_layers, w)
  | layer :: rest =>
      match _select_layer_file self layer w with
      | (Some layer_file, w1) =>
          select_into self rest (dict_set selected_layers layer layer_file) w1
      | (None, w1) => select_into self rest selected_layers w1
      end
  end.

Definition select_layers (self : CharacterGenerator) (order : list string) (w : world)
  : dict layer_file * world :=
  select_into self order [] w.

(** The test that skips a layer in both compositing loops. *)
Definition skipped (layer_name : string) (layer_info : layer_file) : bool :=
  (String.eqb layer_name "Background" || String.eqb (type layer_info) "gif")%bool.

Definition none_not_subscriptable : exn :=
  TypeError "'NoneType' object is not subscriptable".

(** The loop "Paste other static layers" of [_generate_png_character]. *)
Fixpoint paste_static_layers (self : CharacterGenerator)
    (its : list (string * layer_file)) (combined_image : image) : result image :=
  match its with
  | [] => Ok combined_image
  | (layer_name, layer_info) :: rest =>
      if skipped layer_name layer_info then paste_static_layers self rest combined_image
      else
        match PIL.decoded (os self) (path layer_info) with
        | Raise e => Raise e
        | Ok _ =>
            let layer_image := ConvertRGBA (Frame (path layer_info) 0) in
            paste_static_layers self rest (PasteMask combined_image layer_image layer_image)
        end
  end.

(** [_generate_png_character(self, selected_layers, edition)] *)
Definition _generate_png_character (self : CharacterGenerator)
    (selected_layers : dict layer_file) (edition : Z) : M string :=
  fun w =>
  match dict_get selected_layers "Background" with
  | None => (Raise none_not_subscriptable, w)
  | Some background =>
      match PIL.decoded (os self) (path background) with
      | Raise e => (Raise e, w)
      | Ok _ =>
          let background_image := ConvertRGBA (Frame (path background) 0) in
          let combined_image := Paste (NewRGBA background_image) background_image in
          match paste_static_layers self (items selected_layers) combined_image with
          | Raise e => (Raise e, w)
          | Ok combined_image =>
              let output_path :=
                OsPath.join3 (output_dir self) "images" (PyStr.of_int edition ++ ".png") in
              let w1 := save_image output_path (SavedPng combined_image) w in
              (Ok output_path, print ("Generated character PNG: " ++ output_path) w1)
          end
      end
  end.

(** The loop "Prepare static layers" of [_generate_gif_character]. *)
Fixpoint open_static_layers (self : CharacterGenerator)
    (its : list (string * layer_file)) (static_layers : dict image) : result (dict image) :=
  match its with
  | [] => Ok static_layers
  | (layer_name, layer_info) :: rest =>
      if skipped layer_name layer_info then open_static_layers self rest static_layers
      else
        match PIL.decoded (os self) (path layer_info) with
        | Raise e => Raise e
        | Ok _ =>
            let layer_image := ConvertRGBA (Frame (path layer_info) 0) in
            open_static_layers self rest (dict_set static_layers layer_name layer_image)
        end
  end.

(** The body of the loop "Prepare frames": one background frame in, one
    combined frame out. *)
Definition combine_frame (static_layers : dict image) (frame : image) : image :=
  let frame := ConvertRGBA frame in
  let combined_frame := Paste (NewRGBA frame) frame in
  fold_left (fun combined_frame layer_image => PasteMask combined_frame layer_image layer_image)
            (values static_layers) combined_frame.

(** [_generate_gif_character(self, selected_layers, edition)]. The
    background is only opened before the static layers are prepared; its
    frames are decoded in the loop that follows them. *)
Definition _generate_gif_character (self : CharacterGenerator)
    (selected_layers : dict layer_file) (edition : Z) : M string :=
  fun w =>
  match dict_get selected_layers "Background" with
  | None => (Raise none_not_subscriptable, w)
  | Some background =>
      match PIL.open_raises (os self) (path background) with
      | Some e => (Raise e, w)
      | None =>
          match open_static_layers self (items selected_layers) [] with
          | Raise e => (Raise e, w)
          | Ok static_layers =>
              match PIL.decoded (os self) (path background) with
              | Raise e => (Raise e, w)
              | Ok background_gif =>
                  let frames :=
                    map (combine_frame static_layers)
                        (PIL.frames_of (path background) background_gif) in
                  let output_path :=
                    OsPath.join3 (output_dir self) "images"
                                 (PyStr.of_int edition ++ ".gif") in
                  match frames with
                  | [] => (Raise (IndexError "list index out of range"), w)
                  | first :: rest =>
                      let duration :=
                        PIL.info_duration_after_iteration background_gif 100 in
                      let w1 :=
                        save_image output_path (SavedGif first rest duration 0) w in
                      (Ok output_path,
                       print ("Generated character GIF: " ++ output_path) w1)
                  end
              end
          end
      end
  end.

(** The conditional expression of [generate_character] that picks the
    compositing method from [selected_layers.get('Background')]; a
    selection dictionary is never empty, so [background] is truthy as soon
    as it is not [None]. *)
Definition composite (self : CharacterGenerator)
    (selected_layers : dict layer_file) (edition : Z) : M string :=
  match dict_get selected_layers "Background" with
  | Some background =>
      if String.eqb (type background) "gif"
      then _generate_gif_character self selected_layers edition
      else _generate_png_character self selected_layers edition
  | None => _generate_png_character self selected_layers edition
  end.

(** The comprehension that builds ["attributes"]. *)
Fixpoint attributes_of (order : list string) (selected_layers : dict layer_file)
  : list (string * string) :=
  match order with
  | [] => []
  | layer :: rest =>
      match dict_get selected_layers layer with
      | Some layer_file =>
          (layer, fst (OsPath.splitext (filename layer_file)))
            :: attributes_of rest selected_layers
      | None => attributes_of rest selected_layers
      end
  end.

Definition exhausted (max_attempts : Z) : exn :=
  ValueError ("Could not generate a unique character after "
                ++ PyStr.of_int max_attempts ++ " attempts").

(** The [for attempt in range(max_attempts)] loop of
    [generate_character], with [n] iterations left, and the [raise] that
    follows it. *)
Fixpoint attempts (self : CharacterGenerator) (n : nat) (order : list string)
    (edition max_attempts : Z) : M metadata :=
  fun w =>
  match n with
  | O => (Raise (exhausted max_attempts), w)
  | S n' =>
      let '(selected_layers, w1) := select_layers self order w in
      let dna := _generate_dna_hash selected_layers in
      if decide (dna ∈ generated_dnas w1)
      then attempts self n' order edition max_attempts w1
      else
        let w2 := add_dna dna w1 in
        match composite self selected_layers edition w2 with
        | (Raise e, w3) => (Raise e, w3)
        | (Ok image_path, w3) =>
            let metadata :=
              {| name := collection_name (cfg self) ++ " #" ++ PyStr.of_int edition;
                 description := collection_description (cfg self);
                 image_uri := ipfs_base_uri (cfg self) ++ PyStr.of_int edition ++ "."
                                ++ PyStr.after_last_dot image_path;
                 dna := dna;
                 edition_no := edition;
                 date := now_ms (os self) (clock_pos w3);
                 attributes := attributes_of order selected_layers;
                 compiler := compiler_tag (cfg self) |} in
            let metadata_path :=
              OsPath.join3 (output_dir self) "json" (PyStr.of_int edition ++ ".json") in
            (Ok metadata, save_json metadata_path metadata (tick_clock w3))
        end
  end.

(** [generate_character(self, layers_order, edition, max_attempts)] *)
Definition generate_character (self : CharacterGenerator) (order : list string)
    (edition max_attempts : Z) : M metadata :=
  attempts self (Z.to_nat max_attempts) order edition max_attempts.

(** [range(1, total_characters + 1)] *)
Definition editions (total_characters : Z) : list Z :=
  map Z.of_nat (seq 1 (Z.to_nat total_characters)).

(** The [for edition in ...] loop of [generate_collection]: only
    [ValueError] is caught, and it ends the loop. *)
Fixpoint collect (self : CharacterGenerator) (todo : list Z) (order : list string)
    (max_attempts : Z) (generated_characters : list metadata) : M (list metadata) :=
  fun w =>
  match todo with
  | [] => (Ok generated_characters, w)
  | edition :: rest =>
      match generate_character self order edition max_attempts w with
      | (Ok character_metadata, w1) =>
          collect self rest order max_attempts
                  (generated_characters ++ [character_metadata])
                  (print ("Generated character #" ++ PyStr.of_int edition) w1)
      | (Raise (ValueError e), w1) =>
          (Ok generated_characters,
           print ("Error generating character #" ++ PyStr.of_int edition ++ ": " ++ e) w1)
      | (Raise e, w1) => (Raise e, w1)
      end
  end.

(** [generate_collection(self)] *)
Definition generate_collection (self : CharacterGenerator) : M (list metadata) :=
  let order := default [] (layers_order (cfg self)) in
  let total_characters := total_characters (cfg self) in
  let max_attempts := max_generation_attempts (cfg self) in
  collect self (editions total_characters) order max_attempts [].

(** [CharacterGenerator(config_path)], once [config.json] has been read
    into [c]: the object, and the state it starts in, with an empty
    registry. The output directories it creates are not modelled. *)
Definition __init__ (c : config) (e : environment) : CharacterGenerator * world :=
  (Generator c e, fresh).

(** [main()]: a new generator runs [generate_collection]; the list it
    returns is dropped. *)
Definition main (c : config) (e : environment) : result unit * world :=
  let '(generator, w) := __init__ c e in
  match generate_collection generator w with
  | (Ok _, w') => (Ok tt, w')
  | (Raise exc, w') => (Raise exc, w')
  end.

(** ** Vocabulary for the statements *)

(** What [_select_layer_file] tests before it draws: the layer's
    directory exists and lists at least one eligible file. *)
Definition has_files (self : CharacterGenerator) (layer : string) : bool :=
  match listdir (os self) (OsPath.join (base_dir self) layer) with
  | Some entries =>
      match List.filter eligible entries with
      | [] => false
      | _ :: _ => true
      end
  | None => false
  end.

(** The state one run of the selection loop leaves behind. *)
Definition reselect (self : CharacterGenerator) (order : list string) (w : world) : world :=
  snd (select_layers self order w).

(** The keys of the dictionary the selection loop builds, started from
    the keys [ks]: a layer with files is appended unless already there. *)
Fixpoint selected_keys (self : CharacterGenerator) (order : list string)
    (ks : list string) : list string :=
  match order with
  | [] => ks
  | layer :: rest =>
      if has_files self layer
      then selected_keys self rest (if bool_decide (layer ∈ ks) then ks else ks ++ [layer])
      else selected_keys self rest ks
  end.

(** The [(layer name, file identity)] pairs of a selection, in iteration
    order: all that [_generate_dna_hash] reads. *)
Definition identities (layers : dict layer_file) : list (string * string) :=
  map (fun kv => (fst kv, path (snd kv))) (items layers).

(** The images [_generate_gif_character] and [_generate_png_character]
    paste over the background: the layers that are neither the background
    nor animated, in iteration order. *)
Definition overlays (selected_layers : dict layer_file) : list image :=
  map (fun kv => ConvertRGBA (Frame (path (snd kv)) 0))
      (List.filter (fun kv => negb (skipped (fst kv) (snd kv))) (items selected_layers)).

(** Background frame [i] of [file] with the overlays pasted on it in order. *)
Definition composed (file : string) (over : list image) (i : nat) : image :=
  fold_left (fun canvas layer_image => PasteMask canvas layer_image layer_image) over
            (Paste (NewRGBA (ConvertRGBA (Frame file i))) (ConvertRGBA (Frame file i))).

(** Is the selection's background animated? *)
Definition gif_background (selected_layers : dict layer_file) : Prop :=
  ∃ background, dict_get selected_layers "Background" = Some background
                ∧ type background = "gif".

(** The layer's source directory is absent, or lists no eligible file. *)
Definition no_eligible_files (self : CharacterGenerator) (layer : string) : Prop :=
  listdir (os self) (OsPath.join (base_dir self) layer) = None
  ∨ ∃ entries, listdir (os self) (OsPath.join (base_dir self) layer) = Some entries
               ∧ List.filter eligible entries = [].

(** What a call handed back: the list it returned, or nothing if it raised. *)
Definition returned {A : Type} (r : result (list A) * world) : list A :=
  match fst r with
  | Ok l => l
  | Raise _ => []
  end.

(** A compositing call ends in one of two ways: it raises, and then the
    state is untouched; or it returns its output path after saving one
    artifact under that path and printing one line. *)
Inductive composited (w : world) : result string * world → Prop :=
| composited_raise e : composited w (Raise e, w)
| composited_ok p a line :
    composited w (Ok p, print line (save_image p a w)).

(** The invariant of the loop of [generate_collection]: the registry is
    the set of the DNAs of the characters collected so far, and these are
    pairwise different. *)
Definition registry_matches (generated_characters : list metadata) (w : world) : Prop :=
  NoDup (map dna generated_characters)
  ∧ ∀ d, d ∈ generated_dnas w ↔ d ∈ map dna generated_characters.

(** The entries "Prepare static layers" adds to [static_layers]. *)
Definition static_entries (its : list (string * layer_file)) : dict image :=
  map (fun kv => (fst kv, ConvertRGBA (Frame (path (snd kv)) 0)))
      (List.filter (fun kv => negb (skipped (fst kv) (snd kv))) its).

(** [layer_file] describes an eligible entry of the directory of [layer]. *)
Definition from_layer_directory (self : CharacterGenerator) (layer : string)
    (layer_file : layer_file) : Prop :=
  ∃ entries,
    listdir (os self) (OsPath.join (base_dir self) layer) = Some entries
    ∧ filename layer_file ∈ entries
    ∧ eligible (filename layer_file) = true
    ∧ path layer_file
      = OsPath.join (OsPath.join (base_dir self) layer) (filename layer_file).

(** The characters of a lower-case hexadecimal number. *)
Definition is_hex (c : ascii) : bool :=
  existsb (Ascii.eqb c) (list_ascii_of_string "0123456789abcdef").

(** The metadata dictionary [generate_character] builds for a selection,
    its DNA, the path [image_path] the compositing returned and the time
    read off the clock. *)
Definition metadata_for (self : CharacterGenerator) (order : list string) (edition : Z)
    (selected_layers : dict layer_file) (d image_path : string) (now : Z) : metadata :=
  {| name := collection_name (cfg self) ++ " #" ++ PyStr.of_int edition;
     description := collection_description (cfg self);
     image_uri := ipfs_base_uri (cfg self) ++ PyStr.of_int edition ++ "."
                    ++ PyStr.after_last_dot image_path;
     dna := d;
     edition_no := edition;
     date := now;
     attributes := attributes_of order selected_layers;
     compiler := compiler_tag (cfg self) |}.

(** Where the metadata of an edition is written. *)
Definition json_path (self : CharacterGenerator) (edition : Z) : string :=
  OsPath.join3 (output_dir self) "json" (PyStr.of_int edition ++ ".json").

(** Where the image of an edition is written, for the extension [ext]. *)
Definition image_path_for (self : CharacterGenerator) (edition : Z) (ext : string) : string :=
  OsPath.join3 (output_dir self) "images" (PyStr.of_int edition ++ "." ++ ext).

(** Attempt number [i] (from 0) of a call started in [w] selects a DNA
    that the registry of [w] holds. *)
Definition collides (self : CharacterGenerator) (order : list string) (w : world)
    (i : nat) : Prop :=
  _generate_dna_hash
    (fst (select_layers self order (Nat.iter i (reselect self order) w)))
  ∈ generated_dnas w.

(** The entry of [saved_json] for a character: its file and the
    dictionary written to it. *)
Definition json_entry (self : CharacterGenerator) (md : metadata) : string * metadata :=
  (json_path self (edition_no md), md).

(** No file makes Pillow raise a [ValueError] (or one of its
    subclasses): the unreadable files fail with exceptions of other
    classes. *)
Definition pillow_raises_no_value_error (self : CharacterGenerator) : Prop :=
  ∀ f msg, open_image (os self) f = None →
           open_failure (os self) f ≠ FailsAtOpen (ValueError msg)
           ∧ open_failure (os self) f ≠ FailsAtLoad (ValueError msg).

(** [e] is what Pillow raises on the file of an entry of the selection. *)
Definition raised_by_pillow (self : CharacterGenerator)
    (selected_layers : dict layer_file) (e : exn) : Prop :=
  ∃ layer_name layer_info,
    (layer_name, layer_info) ∈ items selected_layers
    ∧ PIL.decoded (os self) (path layer_info) = Raise e.

(** The loop of [generate_collection] went through the editions [eds]
    from the state [w]: each call of [generate_character] returned, in
    order, the metadata listed in [mds], the loop printed its line after
    each, and the state is then [wk]. *)
Fixpoint made (self : CharacterGenerator) (order : list string) (max_attempts : Z)
    (w : world) (eds : list Z) (mds : list metadata) (wk : world) : Prop :=
  match eds, mds with
  | [], [] => wk = w
  | edition :: eds', md :: mds' =>
      ∃ w1, generate_character self order edition max_attempts w = (Ok md, w1)
            ∧ made self order max_attempts
                   (print ("Generated character #" ++ PyStr.of_int edition) w1)
                   eds' mds' wk
  | _, _ => False
  end.

(** The registry holds the DNAs of the characters collected so far, which
    are pairwise different, and one DNA more. *)
Definition registry_one_ahead (generated_characters : list metadata) (w : world) : Prop :=
  NoDup (map dna generated_characters)
  ∧ ∃ d0, (d0 ∉ map dna generated_characters)
          ∧ ∀ d, d ∈ generated_dnas w ↔ d = d0 ∨ d ∈ map dna generated_characters.

(** ** Concrete catalogues, used to run the engine *)

Module Fixtures.

Definition still : image_file := ImageFile [None] None.

(** A five-frame GIF whose frames last 50, 200, 50, 50 and 80 ms and
    that asks to be played three times. *)
Definition stars : image_file :=
  ImageFile [Some 50; Some 200; Some 50; Some 50; Some 80] (Some 3).

(** Two backgrounds (one animated), two bodies, no eligible eyes. *)
Definition tree : dict (list string) :=
  [("nft_layers/Background", ["sky.png"; "stars.gif"; "notes.txt"]);
   ("nft_layers/Body", ["robot.png"; "cat.PNG"]);
   ("nft_layers/Eyes", ["readme.md"])].

Definition files : dict image_file :=
  [("nft_layers/Background/sky.png", still);
   ("nft_layers/Background/stars.gif", stars);
   ("nft_layers/Body/robot.png", still);
   ("nft_layers/Body/cat.PNG", still)].

Definition clock (k : nat) : Z := 1700000000000 + Z.of_nat k.

(** A file that is not in the catalogue cannot be identified. *)
Definition unreadable (f : string) : failure := FailsAtOpen (OSError f).

Definition settings (order : list string) (total max_attempts : Z) : config :=
  Config "Robots" "A collection" "ipfs://base/" "nft-gif" None None (Some order)
         total max_attempts.

(** The draws are read off a list, and are 0 past its end. *)
Definition gen (order : list string) (total max_attempts : Z) (rolls : list nat)
  : CharacterGenerator :=
  Generator (settings order total max_attempts)
            (Environment (dict_get tree) (dict_get files) (fun k => nth k rolls 0%nat) clock
                         unreadable).

Definition three_layers : list string := ["Background"; "Body"; "Eyes"].

(** One file per layer: a single combination exists. *)
Definition lone_tree : dict (list string) :=
  [("nft_layers/Background", ["sky.png"]); ("nft_layers/Body", ["robot.png"])].

Definition lone (total max_attempts : Z) : CharacterGenerator :=
  Generator (settings ["Background"; "Body"] total max_attempts)
            (Environment (dict_get lone_tree) (dict_get files) (fun _ => 0%nat) clock
                         unreadable).

(** The same catalogue as [tree], with a body file that is not an image. *)
Definition broken_files : dict image_file :=
  [("nft_layers/Background/sky.png", still);
   ("nft_layers/Background/stars.gif", stars)].

Definition broken (total max_attempts : Z) (rolls : list nat) : CharacterGenerator :=
  Generator (settings three_layers total max_attempts)
            (Environment (dict_get tree) (dict_get broken_files)
                         (fun k => nth k rolls 0%nat) clock unreadable).

(** One selection, stored in two orders. *)
Definition sky : layer_file :=
  LayerFile "nft_layers/Background/sky.png" "png" "sky.png".
Definition robot : layer_file :=
  LayerFile "nft_layers/Body/robot.png" "png" "robot.png".
Definition sky_robot : dict layer_file := [("Background", sky); ("Body", robot)].
Definition robot_sky : dict layer_file := [("Body", robot); ("Background", sky)].

(** A selection with the animated background. *)
Definition stars_file : layer_file :=
  LayerFile "nft_layers/Background/stars.gif" "gif" "stars.gif".
Definition cat : layer_file :=
  LayerFile "nft_layers/Body/cat.PNG" "png" "cat.PNG".
Definition stars_robot_cat : dict layer_file :=
  [("Background", stars_file); ("Body", robot); ("Hat", cat)].

(** A selection without background. *)
Definition body_only : dict layer_file := [("Body", robot)].

(** A background directory whose only entry is a file named [.gif]. *)
Definition dotfile_tree : dict (list string) := [("nft_layers/Background", [".gif"])].
Definition dotfile : CharacterGenerator :=
  Generator (settings ["Background"] 1 1)
            (Environment (dict_get dotfile_tree) (fun _ => Some still) (fun _ => 0%nat) clock
                         unreadable).

(** The catalogue [tree] where [cat.PNG] is not an image. *)
Definition half_broken_files : dict image_file :=
  [("nft_layers/Background/sky.png", still);
   ("nft_layers/Background/stars.gif", stars);
   ("nft_layers/Body/robot.png", still)].

Definition half_broken (total max_attempts : Z) (rolls : list nat) : CharacterGenerator :=
  Generator (settings three_layers total max_attempts)
            (Environment (dict_get tree) (dict_get half_broken_files)
                         (fun k => nth k rolls 0%nat) clock unreadable).

(** The same, where decoding [cat.PNG] makes Pillow raise a [ValueError]. *)
Definition too_large : exn := ValueError "Decompressed data too large".

Definition oversized (total max_attempts : Z) (rolls : list nat) : CharacterGenerator :=
  Generator (settings three_layers total max_attempts)
            (Environment (dict_get tree) (dict_get half_broken_files)
                         (fun k => nth k rolls 0%nat) clock
                         (fun _ => FailsAtLoad too_large)).

(** The catalogue [tree] where [stars.gif] opens but its frames cannot be
    decoded, and [cat.PNG] is not an image. *)
Definition truncated_files : dict image_file :=
  [("nft_layers/Background/sky.png", still);
   ("nft_layers/Body/robot.png", still)].

Definition truncated_failure (f : string) : failure :=
  if String.eqb f "nft_layers/Background/stars.gif"
  then FailsAtLoad (OSError f)
  else FailsAtOpen (OtherError "UnidentifiedImageError" f).

Definition truncated (total max_attempts : Z) (rolls : list nat) : CharacterGenerator :=
  Generator (settings three_layers total max_attempts)
            (Environment (dict_get tree) (dict_get truncated_files)
                         (fun k => nth k rolls 0%nat) clock truncated_failure).

End Fixtures.

(** ** The helpers on known values *)

Example splitext_plain : OsPath.splitext "Blue Sky.PNG" = ("Blue Sky", ".PNG").
Proof. reflexivity. Qed.

Example splitext_two_dots : OsPath.splitext "a.b.gif" = ("a.b", ".gif").
Proof. reflexivity. Qed.

Example splitext_dotfile : OsPath.splitext ".gif" = (".gif", "").
Proof. reflexivity. Qed.

Example splitext_dir_dot : OsPath.splitext "a.d/file" = ("a.d/file", "").
Proof. reflexivity. Qed.

Example join_plain : OsPath.join3 "output" "images" "3.png" = "output/images/3.png".
Proof. reflexivity. Qed.

Example join_absolute : OsPath.join "nft_layers" "/abs" = "/abs".
Proof. reflexivity. Qed.

Example after_last_dot_png : PyStr.after_last_dot "out.put/images/12.png" = "png".
Proof. reflexivity. Qed.

Example of_int_neg : PyStr.of_int (-12) = "-12".
Proof. reflexivity. Qed.

(** The test vectors of FIPS 180 and RFC 3174. *)
Example sha1_empty :
  Sha1.hexdigest "" = "da39a3ee5e6b4b0d3255bfef95601890afd80709".
Proof. vm_compute. reflexivity. Qed.

Example sha1_abc :
  Sha1.hexdigest "abc" = "a9993e364706816aba3e25717850c26c9cd0d89d".
Proof. vm_compute. reflexivity. Qed.

Example sha1_two_blocks :
  Sha1.hexdigest "abcdbcdecdefdefgefghfghighijhijkijkljklmklmnlmnomnopnopq"
  = "84983e441c3bd26ebaae4aa1f95129e5e54670f1".
Proof. vm_compute. reflexivity. Qed.

(** ** Facts about dictionaries *)

Section DictFacts.
Context {V : Type}.
Implicit Types (d : dict V) (k : string) (v : V).

Lemma dict_get_None d k : dict_get d k = None ↔ k ∉ keys d.
Proof.
  induction d as [|[k' v'] d IH]; simpl.
  - split; [intros _; apply not_elem_of_nil | done].
  - rewrite not_elem_of_cons. destruct (String.eqb_spec k' k) as [->|Hne].
    + split; [done | intros [[] _]; done].
    + rewrite IH. split; [intros; split; congruence | tauto].
Qed.

Lemma dict_get_Some_elem d k v : dict_get d k = Some v → (k, v) ∈ items d.
Proof.
  induction d as [|[k' v'] d IH]; simpl; [done|].
  destruct (String.eqb_spec k' k) as [->|Hne].
  - intros [= ->]. apply list_elem_of_here.
  - intros H. apply list_elem_of_further, IH, H.
Qed.

Lemma dict_get_set_eq d k v : dict_get (dict_set d k v) k = Some v.
Proof.
  induction d as [|[k' v'] d IH]; simpl.
  - by rewrite String.eqb_refl.
  - destruct (String.eqb_spec k' k) as [->|Hne]; simpl.
    + by rewrite String.eqb_refl.
    + destruct (String.eqb_spec k' k); [done | apply IH].
Qed.

Lemma dict_get_set_ne d k k' v : k ≠ k' → dict_get (dict_set d k v) k' = dict_get d k'.
Proof.
  intros Hkk'. induction d as [|[k0 v0] d IH]; simpl.
  - destruct (String.eqb_spec k k'); done.
  - destruct (String.eqb_spec k0 k) as [->|Hne]; simpl.
    + destruct (String.eqb_spec k k'); done.
    + destruct (String.eqb_spec k0 k'); [done | apply IH].
Qed.

(** Assigning to a key touches the values only, unless the key is new. *)
Lemma keys_dict_set d k v :
  keys (dict_set d k v) = if dict_mem d k then keys d else (keys d ++ [k])%list.
Proof.
  unfold dict_mem. induction d as [|[k' v'] d IH]; simpl; [done|].
  destruct (String.eqb_spec k' k) as [->|Hne]; simpl; [done|].
  rewrite IH. by destruct (dict_get d k).
Qed.

Lemma NoDup_keys_dict_set d k v : NoDup (keys d) → NoDup (keys (dict_set d k v)).
Proof.
  intros Hd. rewrite keys_dict_set. unfold dict_mem.
  destruct (dict_get d k) eqn:E; [done|].
  apply NoDup_app. split_and!; [done | | apply NoDup_singleton].
  intros x Hx ->%list_elem_of_singleton. by apply dict_get_None in E.
Qed.

Lemma dict_set_fresh d k v : dict_get d k = None → dict_set d k v = (d ++ [(k, v)])%list.
Proof.
  induction d as [|[k' v'] d IH]; simpl; [done|].
  destruct (String.eqb_spec k' k); [done|]. intros H. by rewrite IH.
Qed.

End DictFacts.

(** ** The selection loop *)

Section Selection.
Context (self : CharacterGenerator).
Implicit Types (order : list string) (d : dict layer_file) (w : world).

Lemma dict_mem_keys {V} (d : dict V) k : dict_mem d k = bool_decide (k ∈ keys d).
Proof.
  unfold dict_mem. destruct (dict_get d k) eqn:E.
  - symmetry. apply bool_decide_eq_true. destruct (decide (k ∈ keys d)) as [|Hn]; [done|].
    apply dict_get_None in Hn. congruence.
  - symmetry. apply bool_decide_eq_false. by apply dict_get_None.
Qed.

Lemma select_layer_file_None layer w :
  has_files self layer = false → _select_layer_file self layer w = (None, w).
Proof.
  unfold has_files, _select_layer_file.
  destruct (listdir _ _); [|done]. by destruct (List.filter _ _).
Qed.

Lemma select_layer_file_Some layer w :
  has_files self layer = true →
  ∃ layer_file, _select_layer_file self layer w = (Some layer_file, tick_rng w).
Proof.
  unfold has_files, _select_layer_file.
  destruct (listdir _ _); [|done]. destruct (List.filter _ _) eqn:E; [done|].
  intros _. eexists. reflexivity.
Qed.

(** The keys a selection ends with do not depend on the draws. *)
Lemma select_into_keys order d w :
  keys (fst (select_into self order d w)) = selected_keys self order (keys d).
Proof.
  revert d w. induction order as [|layer rest IH]; intros d w; simpl; [done|].
  destruct (has_files self layer) eqn:Hf.
  - destruct (select_layer_file_Some layer w Hf) as [lf ->].
    rewrite IH, keys_dict_set, dict_mem_keys. by destruct (bool_decide _).
  - rewrite (select_layer_file_None layer w Hf). apply IH.
Qed.

Lemma select_into_NoDup order d w :
  NoDup (keys d) → NoDup (keys (fst (select_into self order d w))).
Proof.
  revert d w. induction order as [|layer rest IH]; intros d w Hd; simpl; [done|].
  destruct (_select_layer_file self layer w) as [[lf|] w1]; [|by apply IH].
  by apply IH, NoDup_keys_dict_set.
Qed.

(** Selecting draws numbers and does nothing else. *)
Lemma select_into_frame order d w :
  let w' := snd (select_into self order d w) in
  generated_dnas w' = generated_dnas w ∧ clock_pos w' = clock_pos w
  ∧ saved_images w' = saved_images w ∧ saved_json w' = saved_json w
  ∧ stdout w' = stdout w.
Proof.
  revert d w. induction order as [|layer rest IH]; intros d w; simpl; [done|].
  destruct (has_files self layer) eqn:Hf.
  - destruct (select_layer_file_Some layer w Hf) as [lf ->].
    exact (IH (dict_set d layer lf) (tick_rng w)).
  - rewrite (select_layer_file_None layer w Hf). apply IH.
Qed.

Lemma reselect_registry order w :
  generated_dnas (reselect self order w) = generated_dnas w.
Proof. apply (select_into_frame order [] w). Qed.

Lemma iter_reselect_registry order n w :
  generated_dnas (Nat.iter n (reselect self order) w) = generated_dnas w.
Proof. induction n as [|n IH]; simpl; [done|]. by rewrite reselect_registry. Qed.

(** A layer without files never gets into the dictionary. *)
Lemma select_into_absent order d w layer :
  has_files self layer = false → dict_get d layer = None →
  dict_get (fst (select_into self order d w)) layer = None.
Proof.
  intros Hf. revert d w. induction order as [|l rest IH]; intros d w Hd; simpl; [done|].
  destruct (has_files self l) eqn:Hl.
  - destruct (select_layer_file_Some l w Hl) as [lf ->]. apply IH.
    rewrite dict_get_set_ne; [done | congruence].
  - rewrite (select_layer_file_None l w Hl). by apply IH.
Qed.

(** With no name listed twice, the keys are the layers with files, in
    the configured order. *)
Lemma selected_keys_NoDup order ks :
  NoDup order → (∀ layer, layer ∈ order → layer ∉ ks) →
  selected_keys self order ks = (ks ++ List.filter (has_files self) order)%list.
Proof.
  revert ks. induction order as [|layer rest IH]; intros ks Hnd Hdisj; simpl.
  - by rewrite app_nil_r.
  - apply NoDup_cons in Hnd as [Hl Hnd].
    destruct (has_files self layer).
    + rewrite bool_decide_eq_false_2 by (apply Hdisj; left).
      rewrite IH; [by rewrite <- app_assoc | done |].
      intros l Hin [Hk | ->%list_elem_of_singleton]%elem_of_app; [|done].
      eapply Hdisj; [right; exact Hin | exact Hk].
    + apply IH; [done|]. intros l Hin. apply Hdisj. by right.
Qed.

End Selection.

(** ** The DNA fingerprint *)

Lemma dna_string_identities (layers : dict layer_file) :
  dna_string layers
  = PyStr.join "|" (map (fun p => fst p ++ ":" ++ snd p) (identities layers)).
Proof. unfold dna_string, identities. by rewrite map_map. Qed.

(** The fingerprint reads the (name, path) pairs in iteration order and
    nothing else. *)
Lemma dna_reads_identities (S1 S2 : dict layer_file) :
  identities S1 = identities S2 → _generate_dna_hash S1 = _generate_dna_hash S2.
Proof.
  intros H. unfold _generate_dna_hash. by rewrite !dna_string_identities, H.
Qed.

Lemma same_keys_same_identities (S1 S2 : dict layer_file) :
  keys S1 = keys S2 → NoDup (keys S1) →
  (∀ layer, path <$> dict_get S1 layer = path <$> dict_get S2 layer) →
  identities S1 = identities S2.
Proof.
  revert S2. induction S1 as [|[k v] r1 IH]; intros [|[k' v'] r2]; simpl; try done.
  intros [= <- Hk] [Hnotin Hnd]%NoDup_cons Hmap.
  unfold identities in *. simpl. f_equal.
  - specialize (Hmap k). simpl in Hmap. rewrite String.eqb_refl in Hmap.
    simpl in Hmap. congruence.
  - apply IH; [done..|]. intros layer.
    destruct (String.eqb_spec k layer) as [<-|Hne].
    + assert (dict_get r1 k = None) as -> by by apply dict_get_None.
      assert (dict_get r2 k = None) as -> by (apply dict_get_None; by rewrite <- Hk).
      done.
    + specialize (Hmap layer). simpl in Hmap.
      by destruct (String.eqb_spec k layer).
Qed.

(** C1, as the code has it. The fingerprint is computed from the
    dictionary in its iteration order, and [generate_character] always
    fills the dictionary in the configured layer order: two selections of
    one generator for one layer order that map every layer name to the
    same file have the same DNA, whatever was drawn to get them. *)
Theorem dna_determined_by_mapping_of_selection
    (self : CharacterGenerator) (order : list string) (w1 w2 : world) :
  (∀ layer, path <$> dict_get (fst (select_layers self order w1)) layer
            = path <$> dict_get (fst (select_layers self order w2)) layer) →
  _generate_dna_hash (fst (select_layers self order w1))
  = _generate_dna_hash (fst (select_layers self order w2)).
Proof.
  intros Hmap. apply dna_reads_identities, same_keys_same_identities; [| |done].
  - unfold select_layers. by rewrite !select_into_keys.
  - apply select_into_NoDup. constructor.
Qed.

(** C1 at a concrete input: the rolls 0,0 and 2,2 pick the same two files. *)
Lemma dna_determined_by_mapping_of_selection_witness :
  _generate_dna_hash
    (fst (select_layers (Fixtures.gen Fixtures.three_layers 3 10 [0; 0; 2; 2]%nat)
                        Fixtures.three_layers fresh))
  = _generate_dna_hash
      (fst (select_layers (Fixtures.gen Fixtures.three_layers 3 10 [0; 0; 2; 2]%nat)
                          Fixtures.three_layers (tick_rng (tick_rng fresh)))).
Proof.
  apply (dna_determined_by_mapping_of_selection
           (Fixtures.gen Fixtures.three_layers 3 10 [0; 0; 2; 2]%nat)
           Fixtures.three_layers fresh (tick_rng (tick_rng fresh))).
  intros layer. vm_compute. reflexivity.
Defined.

(** C1 as stated fails: the two dictionaries below hold the same two
    items, give every layer name the same file, and differ only in
    iteration order; their fingerprints differ. *)
Lemma dna_changes_with_iteration_order :
  Permutation Fixtures.sky_robot Fixtures.robot_sky
  ∧ (∀ layer, dict_get Fixtures.sky_robot layer = dict_get Fixtures.robot_sky layer)
  ∧ _generate_dna_hash Fixtures.sky_robot = "139c7b052d5dc210c8c3eedb79d4fe4f8cc170ce"
  ∧ _generate_dna_hash Fixtures.robot_sky ≠ _generate_dna_hash Fixtures.sky_robot.
Proof.
  split_and!.
  - apply perm_swap.
  - intros layer. unfold Fixtures.sky_robot, Fixtures.robot_sky. cbn [dict_get].
    destruct (String.eqb_spec "Background" layer) as [<-|]; [reflexivity|].
    by destruct (String.eqb "Body" layer).
  - vm_compute. reflexivity.
  - intros H. vm_compute in H. discriminate H.
Qed.

(** ** The compositing methods: what they return, raise and change *)

Section Compositing.
Context (self : CharacterGenerator).
Implicit Types (selected_layers : dict layer_file) (edition : Z) (w : world).

Lemma decoded_Some file im :
  open_image (os self) file = Some im → PIL.decoded (os self) file = Ok im.
Proof. unfold PIL.decoded. by intros ->. Qed.

Lemma decoded_Ok file im :
  PIL.decoded (os self) file = Ok im → open_image (os self) file = Some im.
Proof. unfold PIL.decoded. destruct (open_image _ _); [by intros [= ->]|done]. Qed.

Lemma open_raises_Some file im :
  open_image (os self) file = Some im → PIL.open_raises (os self) file = None.
Proof. unfold PIL.open_raises. by intros ->. Qed.

Lemma open_raises_decoded file e :
  PIL.open_raises (os self) file = Some e → PIL.decoded (os self) file = Raise e.
Proof.
  unfold PIL.open_raises, PIL.decoded. destruct (open_image _ _); [done|].
  destruct (open_failure _ _); [by intros [= ->]|done].
Qed.

Lemma decoded_no_value_error file msg :
  pillow_raises_no_value_error self →
  PIL.decoded (os self) file ≠ Raise (ValueError msg).
Proof.
  intros Hno. unfold PIL.decoded.
  destruct (open_image _ _) eqn:Hopen; [done|].
  destruct (Hno file msg Hopen) as [H1 H2].
  destruct (open_failure _ _); intros [= ->]; [by apply H1|by apply H2].
Qed.

Lemma paste_static_layers_raises its im e :
  paste_static_layers self its im = Raise e →
  ∃ layer_name layer_info,
    (layer_name, layer_info) ∈ its
    ∧ skipped layer_name layer_info = false
    ∧ PIL.decoded (os self) (path layer_info) = Raise e.
Proof.
  revert im. induction its as [|[layer_name layer_info] rest IH]; intros im; simpl; [done|].
  destruct (skipped layer_name layer_info) eqn:Hsk.
  - intros (l & i & Hin & H)%IH. exists l, i. split; [by right|done].
  - destruct (PIL.decoded _ _) eqn:Hdec.
    + intros (l & i & Hin & H)%IH. exists l, i. split; [by right|done].
    + intros [= <-]. exists layer_name, layer_info. split; [by left|done].
Qed.

Lemma open_static_layers_raises its acc e :
  open_static_layers self its acc = Raise e →
  ∃ layer_name layer_info,
    (layer_name, layer_info) ∈ its
    ∧ skipped layer_name layer_info = false
    ∧ PIL.decoded (os self) (path layer_info) = Raise e.
Proof.
  revert acc. induction its as [|[layer_name layer_info] rest IH]; intros acc; simpl; [done|].
  destruct (skipped layer_name layer_info) eqn:Hsk.
  - intros (l & i & Hin & H)%IH. exists l, i. split; [by right|done].
  - destruct (PIL.decoded _ _) eqn:Hdec.
    + intros (l & i & Hin & H)%IH. exists l, i. split; [by right|done].
    + intros [= <-]. exists layer_name, layer_info. split; [by left|done].
Qed.

Lemma png_composited selected_layers edition w :
  composited w (_generate_png_character self selected_layers edition w).
Proof.
  unfold _generate_png_character.
  destruct (dict_get _ _) as [background|]; [|by constructor].
  destruct (PIL.decoded _ _); [|by constructor].
  destruct (paste_static_layers _ _ _) as [im|e]; by constructor.
Qed.

Lemma gif_composited selected_layers edition w :
  composited w (_generate_gif_character self selected_layers edition w).
Proof.
  unfold _generate_gif_character.
  destruct (dict_get _ _) as [background|]; [|by constructor].
  destruct (PIL.open_raises _ _); [by constructor|].
  destruct (open_static_layers _ _ _) as [static_layers|e]; [|by constructor].
  destruct (PIL.decoded _ _); [|by constructor].
  destruct (map _ _); by constructor.
Qed.

Lemma composite_composited selected_layers edition w :
  composited w (composite self selected_layers edition w).
Proof.
  unfold composite. destruct (dict_get _ _) as [background|].
  - destruct (String.eqb _ _); [apply gif_composited | apply png_composited].
  - apply png_composited.
Qed.

Lemma composited_registry w r w' :
  composited w (r, w') → generated_dnas w' = generated_dnas w.
Proof. by inversion 1. Qed.

(** What a compositing method raises: the [TypeError] of the missing
    background, the [IndexError] of a background without frames, or what
    Pillow raised on a file of the selection. *)
Lemma png_raises selected_layers edition w e w' :
  _generate_png_character self selected_layers edition w = (Raise e, w') →
  e = none_not_subscriptable ∨ raised_by_pillow self selected_layers e.
Proof.
  unfold _generate_png_character.
  destruct (dict_get _ _) as [background|] eqn:Hbg; [|intros [= <- _]; by left].
  destruct (PIL.decoded _ _) eqn:Hdec.
  - destruct (paste_static_layers _ _ _) as [im|e'] eqn:E; [done|].
    intros [= <- _]. right.
    apply paste_static_layers_raises in E as (l & i & Hin & _ & H). by exists l, i.
  - intros [= <- _]. right. exists "Background", background.
    split; [by apply dict_get_Some_elem|done].
Qed.

Lemma gif_raises selected_layers edition w e w' :
  _generate_gif_character self selected_layers edition w = (Raise e, w') →
  e = none_not_subscriptable ∨ e = IndexError "list index out of range"
  ∨ raised_by_pillow self selected_layers e.
Proof.
  unfold _generate_gif_character.
  destruct (dict_get _ _) as [background|] eqn:Hbg; [|intros [= <- _]; by left].
  apply dict_get_Some_elem in Hbg.
  destruct (PIL.open_raises _ _) eqn:Hopen.
  { intros [= <- _]. right; right. exists "Background", background.
    split; [done|]. by apply open_raises_decoded. }
  destruct (open_static_layers _ _ _) as [static_layers|e'] eqn:E.
  - destruct (PIL.decoded _ _) eqn:Hdec.
    + destruct (map _ _); [|done]. intros [= <- _]. right; by left.
    + intros [= <- _]. right; right. by exists "Background", background.
  - intros [= <- _]. right; right.
    apply open_static_layers_raises in E as (l & i & Hin & _ & H). by exists l, i.
Qed.

Lemma composite_raises selected_layers edition w e w' :
  composite self selected_layers edition w = (Raise e, w') →
  e = none_not_subscriptable ∨ e = IndexError "list index out of range"
  ∨ raised_by_pillow self selected_layers e.
Proof.
  unfold composite. destruct (dict_get _ _) as [background|].
  - destruct (String.eqb _ _); [apply gif_raises|].
    intros [?|?]%png_raises; tauto.
  - intros [?|?]%png_raises; tauto.
Qed.

(** Compositing raises no [ValueError] unless Pillow does. *)
Lemma composite_no_value_error selected_layers edition w msg w' :
  pillow_raises_no_value_error self →
  composite self selected_layers edition w ≠ (Raise (ValueError msg), w').
Proof.
  intros Hno [H|[H|(l & i & _ & H)]]%composite_raises; [done|done|].
  by apply decoded_no_value_error in H.
Qed.

End Compositing.

(** ** [generate_character] and the registry *)

Section Registry.
Context (self : CharacterGenerator).
Implicit Types (order : list string) (edition max_attempts : Z) (w : world).

(** One call of [generate_character], whatever its outcome, leaves every
    DNA it found in the registry. *)
Lemma attempts_registry_mono n order edition max_attempts w :
  generated_dnas w ⊆ generated_dnas (snd (attempts self n order edition max_attempts w)).
Proof.
  revert w. induction n as [|n IH]; intros w; simpl; [done|].
  destruct (select_layers self order w) as [selected_layers w1] eqn:Hsel.
  assert (generated_dnas w1 = generated_dnas w) as Hreg.
  { change w1 with (snd (selected_layers, w1)). rewrite <- Hsel. apply reselect_registry. }
  case_decide as Hin.
  - rewrite <- Hreg. apply IH.
  - pose proof (composite_composited self selected_layers edition
                  (add_dna (_generate_dna_hash selected_layers) w1)) as Hc.
    destruct (composite _ _ _ _) as [[p|e] w3];
      apply composited_registry in Hc; simpl in *; rewrite Hc, Hreg;
      apply union_subseteq_r.
Qed.

(** A call that returns has added exactly its own, new, DNA. *)
Lemma attempts_Ok n order edition max_attempts w md w' :
  attempts self n order edition max_attempts w = (Ok md, w') →
  (dna md ∉ generated_dnas w) ∧ generated_dnas w' = ({[dna md]} ∪ generated_dnas w).
Proof.
  revert w. induction n as [|n IH]; intros w; simpl; [done|].
  destruct (select_layers self order w) as [selected_layers w1] eqn:Hsel.
  assert (generated_dnas w1 = generated_dnas w) as Hreg.
  { change w1 with (snd (selected_layers, w1)). rewrite <- Hsel. apply reselect_registry. }
  case_decide as Hin.
  - rewrite <- Hreg. apply IH.
  - pose proof (composite_composited self selected_layers edition
                  (add_dna (_generate_dna_hash selected_layers) w1)) as Hc.
    destruct (composite _ _ _ _) as [[p|e] w3]; [|done].
    apply composited_registry in Hc. intros [= <- <-]. simpl in *.
    by rewrite Hc, <- Hreg.
Qed.

(** A call that raises has left the registry as it was, or has added the
    one DNA whose compositing failed. *)
Lemma attempts_Raise_registry n order edition max_attempts w e w' :
  attempts self n order edition max_attempts w = (Raise e, w') →
  generated_dnas w' = generated_dnas w
  ∨ ∃ d, (d ∉ generated_dnas w) ∧ generated_dnas w' = {[d]} ∪ generated_dnas w.
Proof.
  revert w. induction n as [|n IH]; intros w; simpl.
  - intros [= _ <-]. by left.
  - destruct (select_layers self order w) as [selected_layers w1] eqn:Hsel.
    assert (generated_dnas w1 = generated_dnas w) as Hreg.
    { change w1 with (snd (selected_layers, w1)). rewrite <- Hsel. apply reselect_registry. }
    case_decide as Hin.
    + rewrite <- Hreg. apply IH.
    + pose proof (composite_composited self selected_layers edition
                    (add_dna (_generate_dna_hash selected_layers) w1)) as Hc.
      destruct (composite _ _ _ _) as [[p|e'] w3]; [done|].
      apply composited_registry in Hc. intros [= _ <-]. right.
      exists (_generate_dna_hash selected_layers). simpl in *.
      by rewrite Hc, <- Hreg.
Qed.

(** Where Pillow raises no [ValueError], a call that raises one has run
    out of attempts, and has not touched the registry. *)
Lemma attempts_ValueError n order edition max_attempts w msg w' :
  pillow_raises_no_value_error self →
  attempts self n order edition max_attempts w = (Raise (ValueError msg), w') →
  ValueError msg = exhausted max_attempts ∧ generated_dnas w' = generated_dnas w.
Proof.
  intros Hno. revert w. induction n as [|n IH]; intros w; simpl.
  - by intros [= <- <-].
  - destruct (select_layers self order w) as [selected_layers w1] eqn:Hsel.
    assert (generated_dnas w1 = generated_dnas w) as Hreg.
    { change w1 with (snd (selected_layers, w1)). rewrite <- Hsel. apply reselect_registry. }
    case_decide as Hin.
    + rewrite <- Hreg. apply IH.
    + destruct (composite _ _ _ _) as [[p|e] w3] eqn:Hc; [done|].
      intros [= -> <-]. by apply composite_no_value_error in Hc.
Qed.

Lemma registry_matches_snoc acc w md w1 :
  registry_matches acc w →
  dna md ∉ generated_dnas w →
  generated_dnas w1 = {[dna md]} ∪ generated_dnas w →
  registry_matches (acc ++ [md]) w1.
Proof.
  intros [Hnd Hiff] Hnew Hreg. split.
  - rewrite map_app. apply NoDup_app. split_and!; [done| |apply NoDup_singleton].
    intros d Hd ->%list_elem_of_singleton. by apply Hnew, Hiff.
  - intros d. rewrite Hreg, map_app, elem_of_app, elem_of_union, Hiff.
    simpl. rewrite !list_elem_of_singleton, elem_of_singleton. tauto.
Qed.

(** The loop keeps the registry equal to the DNAs collected, until a
    caught [ValueError] ends it; the registry is then at most one DNA
    ahead, and only if editions were left to make. *)
Lemma collect_registry todo order max_attempts acc w mds w' :
  registry_matches acc w →
  collect self todo order max_attempts acc w = (Ok mds, w') →
  registry_matches mds w'
  ∨ (registry_one_ahead mds w' ∧ (length mds < length acc + length todo)%nat).
Proof.
  revert acc w. induction todo as [|edition rest IH]; intros acc w Hinv; simpl.
  - intros [= <- <-]. by left.
  - destruct (generate_character self order edition max_attempts w) as [[md|e] w1] eqn:Hgc.
    + apply attempts_Ok in Hgc as [Hnew Hreg]. intros Hrun.
      apply IH in Hrun; [|by eapply registry_matches_snoc].
      rewrite length_app in Hrun. simpl in Hrun.
      destruct Hrun as [?|[? ?]]; [by left|right]. split; [done|lia].
    + destruct e as [msg| | | |]; try done.
      apply attempts_Raise_registry in Hgc. intros [= <- <-].
      destruct Hinv as [Hnd Hiff].
      destruct Hgc as [Hreg|(d0 & Hd0 & Hreg)].
      * left. split; [done|]. intros d. simpl. by rewrite Hreg.
      * right. split; [|lia]. split; [done|]. exists d0. split.
        -- by rewrite <- Hiff.
        -- intros d. simpl. rewrite Hreg, elem_of_union, elem_of_singleton, Hiff. tauto.
Qed.

(** Where Pillow raises no [ValueError], the registry is never ahead. *)
Lemma collect_registry_matches todo order max_attempts acc w mds w' :
  pillow_raises_no_value_error self →
  registry_matches acc w →
  collect self todo order max_attempts acc w = (Ok mds, w') →
  registry_matches mds w'.
Proof.
  intros Hno. revert acc w. induction todo as [|edition rest IH]; intros acc w Hinv; simpl.
  - by intros [= <- <-].
  - destruct (generate_character self order edition max_attempts w) as [[md|e] w1] eqn:Hgc.
    + apply attempts_Ok in Hgc as [Hnew Hreg]. apply IH.
      by eapply registry_matches_snoc.
    + destruct e as [msg| | | |]; try done.
      apply attempts_ValueError in Hgc as [_ Hreg]; [|done]. intros [= <- <-].
      destruct Hinv as [Hnd Hiff]. split; [done|]. intros d. simpl. by rewrite Hreg.
Qed.

Lemma registry_matches_size mds w :
  registry_matches mds w → size (generated_dnas w) = length mds.
Proof.
  intros [Hnd Hiff].
  assert (generated_dnas w = list_to_set (map dna mds)) as ->.
  { apply set_eq. intros d. by rewrite elem_of_list_to_set. }
  by rewrite size_list_to_set, length_map.
Qed.

Lemma registry_one_ahead_size mds w :
  registry_one_ahead mds w → size (generated_dnas w) = S (length mds).
Proof.
  intros [Hnd (d0 & Hd0 & Hiff)].
  assert (generated_dnas w = {[d0]} ∪ list_to_set (map dna mds)) as ->.
  { apply set_eq. intros d.
    by rewrite elem_of_union, elem_of_singleton, elem_of_list_to_set. }
  rewrite size_union, size_singleton, size_list_to_set, length_map; [done|done|].
  intros d ->%elem_of_singleton. by rewrite elem_of_list_to_set.
Qed.

Lemma registry_matches_fresh : registry_matches [] fresh.
Proof. split; [constructor|]. intros d. simpl. set_solver. Qed.

End Registry.

(** C2 (as written in the specification) fails: a run can return [N]
    characters and leave [N + 1] DNAs in the registry. Of the two body
    files of this catalogue one is readable and the other makes Pillow
    raise a [ValueError] while it is decoded; edition 1 draws the first,
    edition 2 the second, whose DNA is registered before the compositing
    fails; [generate_collection] catches the error and returns the one
    character made. *)
Lemma registry_can_run_one_dna_ahead :
  let self := Fixtures.oversized 3 10 [0; 0; 0; 1]%nat in
  let run := generate_collection self fresh in
  fst run = Ok (returned run)
  ∧ length (returned run) = 1%nat
  ∧ size (generated_dnas (snd run)) = 2%nat
  ∧ ¬ (size (generated_dnas (snd run)) = length (returned run)).
Proof.
  intros self run.
  assert (length (returned run) = 1%nat) as Hlen by (vm_compute; reflexivity).
  assert (size (generated_dnas (snd run)) = 2%nat) as Hsize by (vm_compute; reflexivity).
  split_and!; [vm_compute; reflexivity | exact Hlen | exact Hsize |].
  rewrite Hlen, Hsize. discriminate.
Qed.

(** C2 (amended). After a run of [generate_collection] on a new generator
    that returned [N] characters, no two of these characters share a DNA
    and the registry holds their [N] DNAs, and either nothing else or
    exactly one DNA besides, which is not the DNA of a returned
    character. It holds exactly the [N] DNAs when every requested edition
    was made, and also whenever no file makes Pillow raise a
    [ValueError]. And no call of [generate_character], in any state and
    with any outcome, removes a DNA from the registry. *)
Theorem registry_holds_the_dna_of_every_edition
    (self : CharacterGenerator) (mds : list metadata) (w : world) :
  generate_collection self fresh = (Ok mds, w) →
  NoDup (map dna mds)
  ∧ (∀ d, d ∈ map dna mds → d ∈ generated_dnas w)
  ∧ (registry_matches mds w ∧ size (generated_dnas w) = length mds
     ∨ registry_one_ahead mds w ∧ size (generated_dnas w) = S (length mds))
  ∧ (length mds = Z.to_nat (total_characters (cfg self)) →
     size (generated_dnas w) = length mds
     ∧ ∀ d, d ∈ generated_dnas w ↔ d ∈ map dna mds)
  ∧ (pillow_raises_no_value_error self →
     size (generated_dnas w) = length mds
     ∧ ∀ d, d ∈ generated_dnas w ↔ d ∈ map dna mds)
  ∧ (∀ order edition max_attempts w0,
       generated_dnas w0
       ⊆ generated_dnas (snd (generate_character self order edition max_attempts w0))).
Proof.
  intros Hrun.
  pose proof (collect_registry self _ _ _ _ _ _ _ registry_matches_fresh Hrun) as Hinv.
  simpl in Hinv. unfold editions in Hinv. rewrite length_map, length_seq in Hinv.
  split_and!.
  - destruct Hinv as [[Hnd _]|[[Hnd _] _]]; exact Hnd.
  - intros d Hd. destruct Hinv as [[_ Hiff]|[[_ (d0 & _ & Hiff)] _]]; apply Hiff; tauto.
  - destruct Hinv as [Hm|[Ha _]]; [left|right].
    + split; [done|by apply registry_matches_size].
    + split; [done|by apply registry_one_ahead_size].
  - intros Hall. destruct Hinv as [Hm|[_ Hlt]]; [|lia].
    split; [by apply registry_matches_size | apply Hm].
  - intros Hno.
    pose proof (collect_registry_matches self _ _ _ _ _ _ _ Hno registry_matches_fresh Hrun)
      as Hm.
    split; [by apply registry_matches_size | apply Hm].
  - intros order edition max_attempts w0. apply attempts_registry_mono.
Qed.

(** C2 at a concrete input: three editions out of the two-by-two
    catalogue, none of whose files makes Pillow raise a [ValueError]. *)
Lemma registry_holds_the_dna_of_every_edition_witness :
  let self := Fixtures.gen Fixtures.three_layers 3 10 [0; 0; 1; 1; 0; 1]%nat in
  length (returned (generate_collection self fresh)) = 3%nat
  ∧ size (generated_dnas (snd (generate_collection self fresh))) = 3%nat
  ∧ NoDup (map dna (returned (generate_collection self fresh))).
Proof.
  intros self.
  destruct (registry_holds_the_dna_of_every_edition self
              (returned (generate_collection self fresh))
              (snd (generate_collection self fresh)))
    as (Hnd & _ & _ & Hall & _).
  { vm_compute. reflexivity. }
  assert (length (returned (generate_collection self fresh)) = 3%nat) as Hlen
    by (vm_compute; reflexivity).
  split_and!; [exact Hlen | | exact Hnd].
  destruct Hall as [Hsize _]; [rewrite Hlen; reflexivity|].
  rewrite Hsize. exact Hlen.
Defined.

(** ** Running out of attempts *)

Section Exhaustion.
Context (self : CharacterGenerator).
Implicit Types (order : list string) (edition max_attempts : Z) (w : world).

Lemma attempts_taken n order edition max_attempts w :
  _generate_dna_hash (fst (select_layers self order w)) ∈ generated_dnas w →
  attempts self (S n) order edition max_attempts w
  = attempts self n order edition max_attempts (reselect self order w).
Proof.
  intros Htaken. cbn [attempts].
  pose proof (reselect_registry self order w) as Hreg. unfold reselect in *.
  destruct (select_layers self order w) as [selected_layers w1]. cbn [fst snd] in *.
  rewrite decide_True; [done | by rewrite Hreg].
Qed.

Lemma attempts_all_taken n order edition max_attempts w :
  (∀ i, (i < n)%nat →
     _generate_dna_hash
       (fst (select_layers self order (Nat.iter i (reselect self order) w)))
     ∈ generated_dnas w) →
  attempts self n order edition max_attempts w
  = (Raise (exhausted max_attempts), Nat.iter n (reselect self order) w).
Proof.
  revert w. induction n as [|n IH]; intros w Htaken; [done|].
  rewrite Nat.iter_succ_r, attempts_taken by apply (Htaken 0%nat ltac:(lia)).
  apply IH. intros i Hi. rewrite reselect_registry.
  specialize (Htaken (S i) ltac:(lia)). by rewrite Nat.iter_succ_r in Htaken.
Qed.

End Exhaustion.

(** C3, as the code has it. When every selection of an edition has a DNA
    that is already in the registry, [generate_character] runs the
    selection loop [max_attempts] times (not at all for a negative
    [max_attempts]), changes nothing else, and raises the [ValueError]
    whose message gives [max_attempts]; nothing in the exception depends
    on the edition. *)
Theorem exhaustion_after_max_attempts
    (self : CharacterGenerator) (order : list string) (edition max_attempts : Z)
    (w : world) :
  (∀ i, (i < Z.to_nat max_attempts)%nat →
     _generate_dna_hash
       (fst (select_layers self order (Nat.iter i (reselect self order) w)))
     ∈ generated_dnas w) →
  generate_character self order edition max_attempts w
  = (Raise (ValueError ("Could not generate a unique character after "
                          ++ PyStr.of_int max_attempts ++ " attempts")),
     Nat.iter (Z.to_nat max_attempts) (reselect self order) w).
Proof. apply attempts_all_taken. Qed.

(** C3 at a concrete input: one file per layer, the only combination
    taken by edition 1, three attempts allowed for edition 2. *)
Lemma exhaustion_after_max_attempts_witness :
  let self := Fixtures.lone 2 3 in
  let order := ["Background"; "Body"] in
  let w := snd (generate_character self order 1 3 fresh) in
  generate_character self order 2 3 w
  = (Raise (ValueError "Could not generate a unique character after 3 attempts"),
     Nat.iter 3 (reselect self order) w)
  ∧ rng_pos (snd (generate_character self order 2 3 w)) = (rng_pos w + 3 * 2)%nat.
Proof.
  intros self order w.
  assert (generate_character self order 2 3 w
          = (Raise (ValueError "Could not generate a unique character after 3 attempts"),
             Nat.iter 3 (reselect self order) w)) as Hrun.
  { apply (exhaustion_after_max_attempts self order 2 3 w).
    intros i Hi. refine (bool_decide_unpack _ _).
    destruct i as [|[|[|i]]]; [vm_compute; exact I .. | simpl in Hi; lia]. }
  split; [exact Hrun|]. rewrite Hrun. vm_compute. reflexivity.
Defined.

(** C3 as stated fails: the exception raised for edition 2 and the one
    raised for edition 3 are the same value, so the edition cannot be
    read off it. *)
Lemma exhaustion_error_does_not_carry_the_edition :
  let self := Fixtures.lone 3 3 in
  let order := ["Background"; "Body"] in
  let w := snd (generate_character self order 1 3 fresh) in
  fst (generate_character self order 2 3 w)
  = Raise (ValueError "Could not generate a unique character after 3 attempts")
  ∧ fst (generate_character self order 3 3 w)
    = Raise (ValueError "Could not generate a unique character after 3 attempts")
  ∧ ¬ (∃ edition_of : exn → Z,
         ∀ edition, edition = 2 ∨ edition = 3 →
           ∃ e, fst (generate_character self order edition 3 w) = Raise e
                ∧ edition_of e = edition).
Proof.
  intros self order w.
  assert (fst (generate_character self order 2 3 w)
          = Raise (ValueError "Could not generate a unique character after 3 attempts"))
    as H2 by (vm_compute; reflexivity).
  assert (fst (generate_character self order 3 3 w)
          = Raise (ValueError "Could not generate a unique character after 3 attempts"))
    as H3 by (vm_compute; reflexivity).
  split_and!; [exact H2 | exact H3 |].
  intros [edition_of Hcarried].
  destruct (Hcarried 2 ltac:(by left)) as (e2 & He2 & Hed2).
  destruct (Hcarried 3 ltac:(by right)) as (e3 & He3 & Hed3).
  rewrite H2 in He2. rewrite H3 in He3.
  injection He2 as <-. injection He3 as <-. lia.
Qed.

(** ** The loop of [generate_collection] *)

Section Collection.
Context (self : CharacterGenerator).
Implicit Types (order : list string) (edition max_attempts : Z) (w : world).

(** What a returned metadata dictionary was made from: the selection of
    some attempt. *)
Lemma attempts_Ok_shape n order edition max_attempts w md w' :
  attempts self n order edition max_attempts w = (Ok md, w') →
  ∃ w0, dna md = _generate_dna_hash (fst (select_layers self order w0))
        ∧ edition_no md = edition
        ∧ attributes md = attributes_of order (fst (select_layers self order w0)).
Proof.
  revert w. induction n as [|n IH]; intros w; simpl; [done|].
  destruct (select_layers self order w) as [selected_layers w1] eqn:Hsel.
  case_decide as Hin; [apply IH|].
  destruct (composite _ _ _ _) as [[p|e] w3]; [|done].
  intros [= <- <-]. exists w. by rewrite Hsel.
Qed.

Lemma collect_length todo order max_attempts acc w mds w' :
  collect self todo order max_attempts acc w = (Ok mds, w') →
  (length acc ≤ length mds ≤ length acc + length todo)%nat.
Proof.
  revert acc w. induction todo as [|edition rest IH]; intros acc w; simpl.
  - intros [= <- <-]. lia.
  - destruct (generate_character self order edition max_attempts w) as [[md|e] w1].
    + intros H%IH. rewrite length_app in H. simpl in H. lia.
    + destruct e; try done. intros [= <- <-]. lia.
Qed.

(** While every edition succeeds the loop goes on: a first stretch of
    editions that all produced a character is followed by the rest. *)
Lemma collect_app todo1 todo2 order max_attempts acc w mds w1 :
  collect self todo1 order max_attempts acc w = (Ok mds, w1) →
  length mds = (length acc + length todo1)%nat →
  collect self (todo1 ++ todo2) order max_attempts acc w
  = collect self todo2 order max_attempts mds w1.
Proof.
  revert acc w. induction todo1 as [|edition rest IH]; intros acc w; simpl.
  - by intros [= <- <-].
  - destruct (generate_character self order edition max_attempts w) as [[md|e] w'].
    + intros Hrest Hlen. apply IH; [done|]. rewrite length_app. simpl. lia.
    + destruct e; try done. intros [= <- <-] Hlen. lia.
Qed.

(** The characters collected carry the numbers of their editions. *)
Lemma collect_editions todo order max_attempts acc w mds w1 :
  collect self todo order max_attempts acc w = (Ok mds, w1) →
  length mds = (length acc + length todo)%nat →
  map edition_no mds = (map edition_no acc ++ todo)%list.
Proof.
  revert acc w. induction todo as [|edition rest IH]; intros acc w; simpl.
  - intros [= <- <-] _. by rewrite app_nil_r.
  - destruct (generate_character self order edition max_attempts w) as [[md|e] w'] eqn:Hgc.
    + intros Hrest Hlen. apply attempts_Ok_shape in Hgc as (_ & _ & Hed & _).
      rewrite (IH _ _ Hrest) by (rewrite length_app; simpl; lia).
      by rewrite map_app, <- app_assoc, <- Hed.
    + destruct e; try done. intros [= <- <-] Hlen. lia.
Qed.

Lemma editions_split (k : nat) (total : Z) :
  (1 ≤ k)%nat → Z.of_nat k ≤ total →
  editions total
  = (editions (Z.of_nat (k - 1)) ++ Z.of_nat k
       :: map Z.of_nat (seq (S k) (Z.to_nat total - k)))%list.
Proof.
  intros Hk Htotal. unfold editions.
  replace (Z.to_nat total) with ((k - 1) + S (Z.to_nat total - k))%nat by lia.
  rewrite seq_app, map_app, Nat2Z.id. simpl.
  replace (S (k - 1)) with k by lia.
  by replace (k - 1 + S (Z.to_nat total - k) - k)%nat with (Z.to_nat total - k)%nat by lia.
Qed.

(** A stretch of editions that each produced a character is followed by
    the rest of the loop, with exactly these characters appended. *)
Lemma collect_made todo rest order max_attempts acc w mds wk :
  made self order max_attempts w todo mds wk →
  collect self (todo ++ rest) order max_attempts acc w
  = collect self rest order max_attempts (acc ++ mds) wk.
Proof.
  revert acc w mds.
  induction todo as [|edition todo IH]; intros acc w [|md mds]; simpl; try done.
  - intros ->. by rewrite app_nil_r.
  - intros (w1 & Hgc & Hrest). rewrite Hgc.
    rewrite (IH _ _ _ Hrest). by rewrite <- app_assoc.
Qed.

Lemma made_length order max_attempts w eds mds wk :
  made self order max_attempts w eds mds wk → length mds = length eds.
Proof.
  revert w mds. induction eds as [|edition eds IH]; intros w [|md mds]; simpl; try done.
  intros (w1 & _ & Hrest). f_equal. by eapply IH.
Qed.

Lemma made_editions order max_attempts w eds mds wk :
  made self order max_attempts w eds mds wk → map edition_no mds = eds.
Proof.
  revert w mds. induction eds as [|edition eds IH]; intros w [|md mds]; simpl; try done.
  intros (w1 & Hgc & Hrest). apply attempts_Ok_shape in Hgc as (_ & _ & Hed & _).
  f_equal; [done|]. by eapply IH.
Qed.

End Collection.

(** C4. If the calls of [generate_character] for the editions 1 to [k-1]
    returned, in this order, the metadata [mds], and the call for edition
    [k] raises the exhaustion error, then [generate_collection] returns
    exactly [mds], the metadata these [k-1] calls produced, and the state
    it ends in is the one the failed call left, plus the printed error
    line: nothing is drawn, registered or written for a later edition. *)
Theorem collection_stops_at_the_exhausted_edition
    (self : CharacterGenerator) (k : nat) (mds : list metadata) (w0 wk wk' : world) :
  let order := default [] (layers_order (cfg self)) in
  let max_attempts := max_generation_attempts (cfg self) in
  (1 ≤ k)%nat → Z.of_nat k ≤ total_characters (cfg self) →
  made self order max_attempts w0 (editions (Z.of_nat (k - 1))) mds wk →
  generate_character self order (Z.of_nat k) max_attempts wk
  = (Raise (exhausted max_attempts), wk') →
  generate_collection self w0
  = (Ok mds,
     print ("Error generating character #" ++ PyStr.of_int (Z.of_nat k) ++ ": "
              ++ "Could not generate a unique character after "
              ++ PyStr.of_int max_attempts ++ " attempts") wk')
  ∧ length mds = (k - 1)%nat
  ∧ map edition_no mds = editions (Z.of_nat (k - 1)).
Proof.
  intros order max_attempts Hk Htotal Hbefore Hfail.
  split_and!.
  - unfold generate_collection. fold order max_attempts.
    rewrite (editions_split k _ Hk Htotal).
    rewrite (collect_made self _ _ _ _ _ _ _ _ Hbefore).
    cbn [collect app]. by rewrite Hfail.
  - rewrite (made_length self _ _ _ _ _ _ Hbefore).
    unfold editions. by rewrite length_map, length_seq, Nat2Z.id.
  - by apply made_editions in Hbefore.
Qed.

(** C4 at a concrete input: three editions asked of a catalogue with a
    single combination; the run stops at edition 2 and returns the
    metadata of edition 1. *)
Lemma collection_stops_at_the_exhausted_edition_witness :
  let self := Fixtures.lone 3 4 in
  let first := generate_character self ["Background"; "Body"] 1 4 fresh in
  ∃ md w1,
    first = (Ok md, w1)
    ∧ fst (generate_collection self fresh) = Ok [md]
    ∧ rng_pos (snd (generate_collection self fresh)) = (rng_pos w1 + 4 * 2)%nat.
Proof.
  intros self first.
  pose (md := match fst first with
              | Ok md => md
              | Raise _ => Metadata "" "" "" "" 0 0 [] ""
              end).
  pose (w1 := snd first).
  pose (wk := print ("Generated character #" ++ PyStr.of_int 1) w1).
  assert (first = (Ok md, w1)) as Hfirst by (vm_compute; reflexivity).
  destruct (collection_stops_at_the_exhausted_edition self 2 [md] fresh wk
              (snd (generate_character self ["Background"; "Body"] 2 4 wk)))
    as (Hrun & _ & _).
  - lia.
  - simpl. lia.
  - exists w1. split; [exact Hfirst | reflexivity].
  - vm_compute. reflexivity.
  - exists md, w1. split_and!; [exact Hfirst | |].
    + rewrite Hrun. reflexivity.
    + rewrite Hrun. vm_compute. reflexivity.
Defined.

(** ** Which compositing method runs *)

Lemma gif_path_saves_gif (self : CharacterGenerator) selected_layers edition w p w' :
  _generate_gif_character self selected_layers edition w = (Ok p, w') →
  ∃ background background_gif first rest,
    dict_get selected_layers "Background" = Some background
    ∧ open_image (os self) (path background) = Some background_gif
    ∧ saved_images w'
      = (saved_images w
           ++ [(p, SavedGif first rest
                     (PIL.info_duration_after_iteration background_gif 100) 0)])%list.
Proof.
  unfold _generate_gif_character.
  destruct (dict_get _ _) as [background|]; [|done].
  destruct (PIL.open_raises _ _); [done|].
  destruct (open_static_layers _ _ _) as [static_layers|e]; [|done].
  destruct (PIL.decoded _ _) as [background_gif|] eqn:Hopen; [|done].
  apply decoded_Ok in Hopen.
  destruct (map _ _) as [|first rest]; [done|].
  intros [= <- <-]. by exists background, background_gif, first, rest.
Qed.

Lemma png_path_saves_png (self : CharacterGenerator) selected_layers edition w p w' :
  _generate_png_character self selected_layers edition w = (Ok p, w') →
  ∃ background im,
    dict_get selected_layers "Background" = Some background
    ∧ saved_images w' = (saved_images w ++ [(p, SavedPng im)])%list.
Proof.
  unfold _generate_png_character.
  destruct (dict_get _ _) as [background|]; [|done].
  destruct (PIL.decoded _ _); [|done].
  destruct (paste_static_layers _ _ _) as [im|e]; [|done].
  intros [= <- <-]. by exists background, im.
Qed.

Lemma composite_gif (self : CharacterGenerator) selected_layers edition :
  gif_background selected_layers →
  composite self selected_layers edition
  = _generate_gif_character self selected_layers edition.
Proof. intros (background & Hbg & Htype). unfold composite. by rewrite Hbg, Htype. Qed.

Lemma composite_png (self : CharacterGenerator) selected_layers edition :
  ¬ gif_background selected_layers →
  composite self selected_layers edition
  = _generate_png_character self selected_layers edition.
Proof.
  intros Hnot. unfold composite.
  destruct (dict_get _ _) as [background|] eqn:Hbg; [|done].
  destruct (String.eqb_spec (type background) "gif") as [Htype|]; [|done].
  destruct Hnot. by exists background.
Qed.

Lemma gif_background_dec (selected_layers : dict layer_file) :
  gif_background selected_layers ∨ ¬ gif_background selected_layers.
Proof.
  unfold gif_background. destruct (dict_get _ _) as [background|].
  - destruct (String.eqb_spec (type background) "gif") as [Htype|Htype].
    + left. by exists background.
    + right. intros (b & [= <-] & Hb). done.
  - right. by intros (b & [=] & _).
Qed.

(** C5. [generate_character] composites with [_generate_gif_character]
    when the selection has a ['Background'] entry whose type is ['gif'],
    and with [_generate_png_character] in every other case, a missing
    background included; accordingly the artifact a successful
    compositing saves is a GIF exactly when the background is animated,
    and a PNG exactly when it is not. *)
Theorem compositing_method_follows_background
    (self : CharacterGenerator) (selected_layers : dict layer_file) (edition : Z) :
  (gif_background selected_layers →
   composite self selected_layers edition
   = _generate_gif_character self selected_layers edition)
  ∧ (¬ gif_background selected_layers →
     composite self selected_layers edition
     = _generate_png_character self selected_layers edition)
  ∧ (dict_get selected_layers "Background" = None →
     composite self selected_layers edition
     = _generate_png_character self selected_layers edition)
  ∧ (∀ w p w', composite self selected_layers edition w = (Ok p, w') →
       (gif_background selected_layers
        ↔ ∃ first rest duration loop_count,
            saved_images w'
            = (saved_images w ++ [(p, SavedGif first rest duration loop_count)])%list)
       ∧ (¬ gif_background selected_layers
          ↔ ∃ im, saved_images w' = (saved_images w ++ [(p, SavedPng im)])%list)).
Proof.
  split_and!.
  - apply composite_gif.
  - apply composite_png.
  - intros Hnone. apply composite_png. intros (b & Hb & _). congruence.
  - intros w p w' Hrun.
    destruct (gif_background_dec selected_layers) as [Hgif|Hpng].
    + rewrite (composite_gif self _ _ Hgif) in Hrun.
      apply gif_path_saves_gif in Hrun as (b & g & first & rest & _ & _ & Hsaved).
      split; split.
      * intros _. by eexists _, _, _, _.
      * intros _. exact Hgif.
      * intros Hnot. by destruct Hnot.
      * intros [im Him]. rewrite Hsaved in Him.
        apply app_inv_head in Him. discriminate Him.
    + rewrite (composite_png self _ _ Hpng) in Hrun.
      apply png_path_saves_png in Hrun as (b & im & _ & Hsaved).
      split; split.
      * intros Hgif. by destruct Hpng.
      * intros (first & rest & d & l & Hgif). rewrite Hsaved in Hgif.
        apply app_inv_head in Hgif. discriminate Hgif.
      * intros _. by exists im.
      * intros _. exact Hpng.
Qed.

(** ** The animated path *)

Section Animated.
Context (self : CharacterGenerator).

Lemma open_static_layers_ok (its : list (string * layer_file)) (acc : dict image) :
  NoDup (keys acc ++ keys its) →
  (∀ layer_name layer_info, (layer_name, layer_info) ∈ its →
     skipped layer_name layer_info = false →
     is_Some (open_image (os self) (path layer_info))) →
  open_static_layers self its acc = Ok (acc ++ static_entries its)%list.
Proof.
  revert acc. induction its as [|[layer_name layer_info] rest IH]; intros acc Hnd Hopen.
  - simpl. by rewrite app_nil_r.
  - cbn [open_static_layers]. unfold static_entries. cbn [List.filter fst snd].
    assert (∀ k i, (k, i) ∈ rest → skipped k i = false →
                   is_Some (open_image (os self) (path i))) as Hrest.
    { intros k i Hin. apply Hopen. by right. }
    destruct (skipped layer_name layer_info) eqn:Hskip; cbn [negb].
    + apply IH; [|done]. cbn [keys map fst] in Hnd.
      apply NoDup_app in Hnd as (Ha & Hdisj & [_ Hr]%NoDup_cons).
      apply NoDup_app. split_and!; [done| |done].
      intros x Hx Hin. apply (Hdisj x Hx). by right.
    + destruct (Hopen layer_name layer_info ltac:(left) Hskip) as [f Hf].
      rewrite (decoded_Some self _ _ Hf).
      cbn [keys map fst] in Hnd.
      assert (layer_name ∉ keys acc) as Hfresh.
      { apply NoDup_app in Hnd as (_ & Hdisj & _). intros Hin.
        apply (Hdisj _ Hin). left. }
      rewrite dict_set_fresh by by apply dict_get_None.
      rewrite IH; [| |done].
      * cbn [map]. by rewrite <- app_assoc.
      * unfold keys in *. rewrite map_app. cbn [map fst].
        by rewrite <- app_assoc.
Qed.

Lemma values_static_entries (selected_layers : dict layer_file) :
  values (static_entries (items selected_layers)) = overlays selected_layers.
Proof. unfold values, static_entries, overlays. by rewrite map_map. Qed.

Lemma combine_frame_composed (static_layers : dict image) (file : string) (i : nat) :
  combine_frame static_layers (Frame file i) = composed file (values static_layers) i.
Proof. reflexivity. Qed.

End Animated.

(** C6. Given a selection whose background file opens as an image of
    [F >= 1] frames and whose other non-animated layers all open,
    [_generate_gif_character] returns after saving exactly [F] frames,
    and frame [i] of the output is frame [i] of the background with the
    same overlays, the static non-background layers in dictionary order,
    pasted on it in the same order. *)
Theorem gif_path_composites_every_background_frame
    (self : CharacterGenerator) (selected_layers : dict layer_file) (edition : Z)
    (w : world) (background : layer_file) (background_gif : image_file) :
  NoDup (keys selected_layers) →
  dict_get selected_layers "Background" = Some background →
  open_image (os self) (path background) = Some background_gif →
  frame_durations background_gif ≠ [] →
  (∀ layer_name layer_info, (layer_name, layer_info) ∈ items selected_layers →
     skipped layer_name layer_info = false →
     is_Some (open_image (os self) (path layer_info))) →
  ∃ p line first rest duration,
    _generate_gif_character self selected_layers edition w
    = (Ok p, print line (save_image p (SavedGif first rest duration 0) w))
    ∧ length (first :: rest) = length (frame_durations background_gif)
    ∧ first :: rest
      = map (composed (path background) (overlays selected_layers))
            (seq 0 (length (frame_durations background_gif))).
Proof.
  intros Hnd Hbg Hopen Hframes Hlayers.
  unfold _generate_gif_character.
  rewrite Hbg, (open_raises_Some self _ _ Hopen), (decoded_Some self _ _ Hopen).
  rewrite (open_static_layers_ok self (items selected_layers) []) by done.
  cbn [app]. unfold PIL.frames_of. rewrite map_map.
  rewrite (map_ext _ (composed (path background) (overlays selected_layers)))
    by (intros i; by rewrite combine_frame_composed, values_static_entries).
  destruct (frame_durations background_gif) as [|d ds]; [done|].
  cbn [length seq map]. eexists _, _, _, _, _. split_and!; [reflexivity| |reflexivity].
  cbn [length]. by rewrite length_map, length_seq.
Qed.

(** C6 at a concrete input: a background of five frames, two static
    overlays. *)
Lemma gif_path_composites_every_background_frame_witness :
  let self := Fixtures.gen Fixtures.three_layers 1 10 [] in
  let robot := ConvertRGBA (Frame "nft_layers/Body/robot.png" 0) in
  let cat := ConvertRGBA (Frame "nft_layers/Body/cat.PNG" 0) in
  let frame i := ConvertRGBA (Frame "nft_layers/Background/stars.gif" i) in
  ∃ p first rest duration,
    saved_images (snd (_generate_gif_character self Fixtures.stars_robot_cat 1 fresh))
    = [(p, SavedGif first rest duration 0)]
    ∧ length (first :: rest) = 5%nat
    ∧ first :: rest
      = map (fun i => PasteMask (PasteMask (Paste (NewRGBA (frame i)) (frame i)) robot robot)
                                cat cat)
            [0; 1; 2; 3; 4]%nat.
Proof.
  intros self robot cat frame.
  destruct (gif_path_composites_every_background_frame self Fixtures.stars_robot_cat 1 fresh
              Fixtures.stars_file Fixtures.stars)
    as (p & line & first & rest & duration & Hrun & Hlen & Hframes).
  - unfold Fixtures.stars_robot_cat. cbn [keys map fst].
    refine (bool_decide_unpack _ _). vm_compute. exact I.
  - reflexivity.
  - reflexivity.
  - discriminate.
  - intros layer_name layer_info Hin Hskip.
    unfold Fixtures.stars_robot_cat, items in Hin.
    apply elem_of_cons in Hin as [[= -> ->]|Hin]; [discriminate Hskip|].
    apply elem_of_cons in Hin as [[= -> ->]|Hin]; [by eexists|].
    apply list_elem_of_singleton in Hin as [= -> ->]. by eexists.
  - exists p, first, rest, duration. rewrite Hrun. split_and!.
    + reflexivity.
    + exact Hlen.
    + exact Hframes.
Defined.

(** C7, as the code has it. Whenever [_generate_gif_character] returns,
    what it saved carries a single duration for all frames, the one found
    in the background's [info] once its frames have been run through
    (that of the last frame, 100 ms if that frame declares none), and the
    loop count 0, which stands for looping forever, whatever the
    background declares. *)
Theorem gif_path_saves_one_duration_and_loop_zero
    (self : CharacterGenerator) (selected_layers : dict layer_file) (edition : Z)
    (w w' : world) (p : string) :
  _generate_gif_character self selected_layers edition w = (Ok p, w') →
  ∃ background background_gif first rest,
    dict_get selected_layers "Background" = Some background
    ∧ open_image (os self) (path background) = Some background_gif
    ∧ saved_images w'
      = (saved_images w
           ++ [(p, SavedGif first rest
                     match last (frame_durations background_gif) with
                     | Some (Some d) => d
                     | _ => 100
                     end 0)])%list.
Proof. apply gif_path_saves_gif. Qed.

(** C7 at a concrete input. *)
Lemma gif_path_saves_one_duration_and_loop_zero_witness :
  let self := Fixtures.gen Fixtures.three_layers 1 10 [] in
  ∃ p first rest,
    saved_images (snd (_generate_gif_character self Fixtures.stars_robot_cat 1 fresh))
    = [(p, SavedGif first rest 80 0)].
Proof.
  intros self.
  destruct (gif_path_saves_one_duration_and_loop_zero self Fixtures.stars_robot_cat 1 fresh
              (snd (_generate_gif_character self Fixtures.stars_robot_cat 1 fresh))
              "output/images/1.gif")
    as (background & background_gif & first & rest & Hbg & Hopen & Hsaved).
  { vm_compute. reflexivity. }
  injection Hbg as <-. injection Hopen as <-.
  exists "output/images/1.gif", first, rest. exact Hsaved.
Defined.

(** C7 as stated fails: the background below has frames of 50, 200, 50,
    50 and 80 ms and asks for three loops; the output gives its five
    frames 80 ms each and loops forever. *)
Lemma gif_path_does_not_keep_the_background_timing :
  let self := Fixtures.gen Fixtures.three_layers 1 10 [] in
  open_image (os self) (path Fixtures.stars_file)
  = Some (ImageFile [Some 50; Some 200; Some 50; Some 50; Some 80] (Some 3))
  ∧ ∃ first rest,
      _generate_gif_character self Fixtures.stars_robot_cat 1 fresh
      = (Ok "output/images/1.gif",
         print "Generated character GIF: output/images/1.gif"
               (save_image "output/images/1.gif" (SavedGif first rest 80 0) fresh))
      ∧ length (first :: rest) = 5%nat.
Proof.
  intros self. split; [reflexivity|].
  exists (composed "nft_layers/Background/stars.gif" (overlays Fixtures.stars_robot_cat) 0),
    (map (composed "nft_layers/Background/stars.gif" (overlays Fixtures.stars_robot_cat))
         (seq 1 4)).
  split; vm_compute; reflexivity.
Qed.

(** ** The static path *)

(** C10. Without a ['Background'] entry [_generate_png_character] raises
    the [TypeError] of subscripting [None] and saves nothing, and so does
    the compositing step of [generate_character], which sends such a
    selection to the static path; the static path returns only for a
    selection that has a background. *)
Theorem png_path_requires_a_background
    (self : CharacterGenerator) (selected_layers : dict layer_file) (edition : Z)
    (w : world) :
  (dict_get selected_layers "Background" = None →
   _generate_png_character self selected_layers edition w
   = (Raise (TypeError "'NoneType' object is not subscriptable"), w))
  ∧ (dict_get selected_layers "Background" = None →
     composite self selected_layers edition w
     = (Raise (TypeError "'NoneType' object is not subscriptable"), w))
  ∧ (∀ p w', _generate_png_character self selected_layers edition w = (Ok p, w') →
       ∃ background, dict_get selected_layers "Background" = Some background).
Proof.
  split_and!.
  - intros Hnone. unfold _generate_png_character. by rewrite Hnone.
  - intros Hnone. unfold composite, _generate_png_character. by rewrite Hnone.
  - intros p w' Hrun. apply png_path_saves_png in Hrun as (b & _ & Hb & _). by exists b.
Qed.

(** C10 at a concrete input: a selection with a body only, and one with
    a background for which the static path does return. *)
Lemma png_path_requires_a_background_witness :
  let self := Fixtures.gen ["Body"] 1 10 [] in
  _generate_png_character self Fixtures.body_only 1 fresh
  = (Raise (TypeError "'NoneType' object is not subscriptable"), fresh)
  ∧ fst (generate_character self ["Body"] 1 10 fresh)
    = Raise (TypeError "'NoneType' object is not subscriptable")
  ∧ fst (_generate_png_character self Fixtures.sky_robot 1 fresh) = Ok "output/images/1.png".
Proof.
  intros self.
  destruct (png_path_requires_a_background self Fixtures.body_only 1 fresh)
    as (Hraise & _ & _).
  split_and!; [apply Hraise; reflexivity | vm_compute; reflexivity ..].
Defined.

(** ** Skipped layers and the attribute list *)

Section Attributes.
Context (self : CharacterGenerator).
Implicit Types (order : list string) (selected_layers : dict layer_file).

Lemma no_eligible_files_has_files layer :
  no_eligible_files self layer ↔ has_files self layer = false.
Proof.
  unfold no_eligible_files, has_files. destruct (listdir _ _) as [entries|].
  - destruct (List.filter eligible entries) eqn:E.
    + split; [done|]. intros _. right. by exists entries.
    + split; [|done]. intros [|(es & [= <-] & Hes)]; congruence.
  - split; [done|]. by left.
Qed.

Lemma elem_of_selected_keys order ks layer :
  layer ∈ selected_keys self order ks
  ↔ layer ∈ ks ∨ (layer ∈ order ∧ has_files self layer = true).
Proof.
  revert ks. induction order as [|l rest IH]; intros ks; simpl.
  - split; [by left | intros [|[[]%elem_of_nil _]]; done].
  - destruct (has_files self l) eqn:Hl; rewrite IH, elem_of_cons.
    + case_bool_decide as Hin.
      * split; [intros [|[]]; [by left | right; split; [by right | done]] |].
        intros [|[[->|] ?]]; [by left | by left | by right].
      * rewrite elem_of_app, list_elem_of_singleton.
        split; [intros [[| ->]|[]]; [by left | by right; split; [left|] | by right; split; [right|]] |].
        intros [|[[->|] ?]]; [by left; left | by left; right | by right].
    + split; [intros [|[]]; [by left | right; split; [by right | done]] |].
      intros [|[[->|] ?]]; [by left | congruence | by right].
Qed.

(** On the layers of the configured order, being in the selection is
    having files. *)
Lemma dict_mem_selection order w layer :
  layer ∈ order →
  dict_mem (fst (select_layers self order w)) layer = has_files self layer.
Proof.
  intros Hin. rewrite dict_mem_keys. unfold select_layers.
  rewrite select_into_keys. simpl.
  destruct (has_files self layer) eqn:Hl.
  - apply bool_decide_eq_true, elem_of_selected_keys. by right.
  - apply bool_decide_eq_false. rewrite elem_of_selected_keys.
    intros [[]%elem_of_nil | [_ ?]]; congruence.
Qed.

Lemma attributes_of_names order selected_layers :
  map fst (attributes_of order selected_layers)
  = List.filter (dict_mem selected_layers) order.
Proof.
  induction order as [|layer rest IH]; simpl; [done|]. unfold dict_mem at 1.
  destruct (dict_get selected_layers layer); simpl; by rewrite IH.
Qed.

Lemma attributes_of_values order selected_layers layer value :
  (layer, value) ∈ attributes_of order selected_layers →
  ∃ layer_file, dict_get selected_layers layer = Some layer_file
                ∧ value = fst (OsPath.splitext (filename layer_file)).
Proof.
  induction order as [|l rest IH]; simpl; [by intros []%elem_of_nil|].
  destruct (dict_get selected_layers l) as [lf|] eqn:E; [|done].
  intros [[= -> ->]|Hin]%elem_of_cons; [by exists lf | by apply IH].
Qed.

End Attributes.

(** C8, as the code has it. A layer whose directory is absent or lists
    no eligible file makes [_select_layer_file] return [None] without any
    effect, and is not a key of the selection. The attributes of a
    returned character come from the selection of the successful attempt:
    their trait types are the entries of the configured order that have
    files, in that order, one for each time the name is listed, and each
    value is the selected file's name without extension. When no name is
    listed twice, the trait types are exactly the keys of the selection:
    one attribute per layer present. *)
Theorem attributes_follow_the_layer_order
    (self : CharacterGenerator) (order : list string) (edition max_attempts : Z)
    (w w' : world) (md : metadata) :
  generate_character self order edition max_attempts w = (Ok md, w') →
  ∃ w0,
    dna md = _generate_dna_hash (fst (select_layers self order w0))
    ∧ (∀ layer w1, no_eligible_files self layer →
         _select_layer_file self layer w1 = (None, w1)
         ∧ dict_get (fst (select_layers self order w0)) layer = None)
    ∧ map fst (attributes md) = List.filter (has_files self) order
    ∧ (∀ layer value, (layer, value) ∈ attributes md →
         ∃ layer_file,
           dict_get (fst (select_layers self order w0)) layer = Some layer_file
           ∧ value = fst (OsPath.splitext (filename layer_file)))
    ∧ (NoDup order →
       map fst (attributes md) = keys (fst (select_layers self order w0))
       ∧ NoDup (map fst (attributes md))).
Proof.
  intros Hrun. apply attempts_Ok_shape in Hrun as (w0 & Hdna & _ & Hattr).
  exists w0. rewrite Hattr. split_and!.
  - exact Hdna.
  - intros layer w1 Hnone%no_eligible_files_has_files. split.
    + by apply select_layer_file_None.
    + by apply select_into_absent.
  - rewrite attributes_of_names. apply List.filter_ext_in.
    intros layer Hin%list_elem_of_In. by apply dict_mem_selection.
  - apply attributes_of_values.
  - intros Hnd.
    assert (map fst (attributes_of order (fst (select_layers self order w0)))
            = keys (fst (select_layers self order w0))) as Hkeys.
    { rewrite attributes_of_names. unfold select_layers at 2.
      rewrite select_into_keys, selected_keys_NoDup; [|done|].
      - simpl. apply List.filter_ext_in.
        intros layer Hin%list_elem_of_In. by apply dict_mem_selection.
      - intros layer _. apply not_elem_of_nil. }
    split; [exact Hkeys|]. rewrite Hkeys. apply select_into_NoDup. constructor.
Qed.

(** C8 at a concrete input: the order [Background, Body, Eyes], where
    [Eyes] lists no image. *)
Lemma attributes_follow_the_layer_order_witness :
  let self := Fixtures.gen Fixtures.three_layers 1 10 [0; 1]%nat in
  map fst (attributes (match fst (generate_character self Fixtures.three_layers 1 10 fresh) with
                       | Ok md => md
                       | Raise _ => Metadata "" "" "" "" 0 0 [] ""
                       end))
  = ["Background"; "Body"].
Proof.
  intros self.
  destruct (attributes_follow_the_layer_order self Fixtures.three_layers 1 10 fresh
              (snd (generate_character self Fixtures.three_layers 1 10 fresh))
              (match fst (generate_character self Fixtures.three_layers 1 10 fresh) with
               | Ok md => md
               | Raise _ => Metadata "" "" "" "" 0 0 [] ""
               end))
    as (w0 & _ & _ & Hnames & _).
  { vm_compute. reflexivity. }
  rewrite Hnames. reflexivity.
Defined.

(** C8 as stated fails when a name is listed twice: the selection below
    has two layers, and the attribute list three entries, two of them for
    [Body]. *)
Lemma repeated_layer_name_repeats_its_attribute :
  let self := Fixtures.gen ["Background"; "Body"; "Body"] 1 10 [0; 0; 1]%nat in
  keys (fst (select_layers self ["Background"; "Body"; "Body"] fresh))
  = ["Background"; "Body"]
  ∧ ∃ md w,
      generate_character self ["Background"; "Body"; "Body"] 1 10 fresh = (Ok md, w)
      ∧ attributes md = [("Background", "sky"); ("Body", "cat"); ("Body", "cat")].
Proof.
  intros self. split; [vm_compute; reflexivity|].
  match goal with
  | |- ∃ md w, ?run = _ ∧ _ =>
      let v := eval vm_compute in run in
      assert (run = v) as -> by (vm_compute; reflexivity)
  end.
  eexists _, _. split; reflexivity.
Qed.

(** ** A compositing failure and the registry *)

(** C9. Take an attempt of [generate_character], the first of a call or
    one that follows collisions, that starts in the state [w] and selects
    a DNA that is not in the registry. Compositing then runs in a state
    whose registry already holds that DNA. If compositing raises, the
    loop raises the same exception at once, whatever number of attempts
    was left, and ends in exactly that state: the DNA stays registered.
    From then on, in every state whose registry still holds it, a call of
    [generate_character] that returns a character returns one with
    another DNA. *)
Theorem failed_compositing_keeps_the_dna_registered
    (self : CharacterGenerator) (order : list string) (edition max_attempts : Z)
    (w : world) (e : exn) (w2 : world) :
  let selected_layers := fst (select_layers self order w) in
  let d := _generate_dna_hash selected_layers in
  d ∉ generated_dnas w →
  composite self selected_layers edition (add_dna d (reselect self order w)) = (Raise e, w2) →
  (∀ n, attempts self (S n) order edition max_attempts w = (Raise e, w2))
  ∧ (0 < max_attempts →
     generate_character self order edition max_attempts w = (Raise e, w2))
  ∧ w2 = add_dna d (reselect self order w)
  ∧ d ∈ generated_dnas w2
  ∧ (∀ order' edition' max_attempts' w3 md w4,
       generated_dnas w2 ⊆ generated_dnas w3 →
       generate_character self order' edition' max_attempts' w3 = (Ok md, w4) →
       dna md ≠ d).
Proof.
  intros selected_layers d Hfresh Hfail.
  pose proof (composite_composited self selected_layers edition
                (add_dna d (reselect self order w))) as Hc.
  rewrite Hfail in Hc.
  assert (add_dna d (reselect self order w) = w2) as Hw by by inversion Hc.
  assert (d ∈ generated_dnas w2) as Hin.
  { rewrite <- Hw. simpl. apply elem_of_union_l, elem_of_singleton. reflexivity. }
  assert (∀ n, attempts self (S n) order edition max_attempts w = (Raise e, w2)) as Hloop.
  { intros n. cbn [attempts]. pose proof (reselect_registry self order w) as Hreg.
    unfold reselect in *. subst selected_layers d.
    destruct (select_layers self order w) as [sl w1]. cbn [fst snd] in *.
    rewrite decide_False by by rewrite Hreg. by rewrite Hfail. }
  split_and!.
  - exact Hloop.
  - intros Hmax. unfold generate_character.
    destruct (Z.to_nat max_attempts) as [|n] eqn:Hn; [lia | apply Hloop].
  - by rewrite Hw.
  - exact Hin.
  - intros order' edition' max_attempts' w3 md w4 Hsub Hrun Heq.
    apply attempts_Ok in Hrun as [Hnew _]. apply Hnew. rewrite Heq. apply Hsub, Hin.
Qed.

(** C9 at a concrete input: the selected body file is not an image. *)
Lemma failed_compositing_keeps_the_dna_registered_witness :
  let self := Fixtures.broken 3 4 [1; 1]%nat in
  let run := generate_character self Fixtures.three_layers 1 4 fresh in
  fst run = Raise (OSError "nft_layers/Body/cat.PNG")
  ∧ size (generated_dnas (snd run)) = 1%nat
  ∧ _generate_dna_hash (fst (select_layers self Fixtures.three_layers fresh))
    ∈ generated_dnas (snd run).
Proof.
  intros self run.
  destruct (failed_compositing_keeps_the_dna_registered self Fixtures.three_layers 1 4 fresh
              (OSError "nft_layers/Body/cat.PNG") (snd run))
    as (_ & Hrun & Hstate & Hin & _).
  - refine (bool_decide_unpack _ _). vm_compute. exact I.
  - vm_compute. reflexivity.
  - specialize (Hrun ltac:(lia)). split_and!.
    + unfold run. rewrite Hrun. reflexivity.
    + vm_compute. reflexivity.
    + exact Hin.
Defined.

(** ** Facts about the string helpers *)

Section StringFacts.
Implicit Types (s p a b : string) (c : ascii).

Lemma string_app_cons c a b : String c a ++ b = String c (a ++ b).
Proof. reflexivity. Qed.

Lemma string_app_nil_l b : "" ++ b = b.
Proof. reflexivity. Qed.

Ltac string_simpl := rewrite ?string_app_cons, ?string_app_nil_l; simpl.

Lemma string_app_nil_r s : s ++ "" = s.
Proof. induction s as [|c s IH]; string_simpl; [done | by rewrite IH]. Qed.

Lemma string_app_assoc a b s : (a ++ b) ++ s = a ++ (b ++ s).
Proof. induction a as [|c a IH]; string_simpl; [done | by rewrite IH]. Qed.

Lemma string_length_app a b :
  String.length (a ++ b) = (String.length a + String.length b)%nat.
Proof. induction a as [|c a IH]; string_simpl; [done | by rewrite IH]. Qed.

Lemma substring_all s : String.substring 0 (String.length s) s = s.
Proof. induction s as [|c s IH]; simpl; [done | by rewrite IH]. Qed.

Lemma substring_skip a b m :
  String.substring (String.length a) m (a ++ b) = String.substring 0 m b.
Proof. induction a as [|c a IH]; string_simpl; [done | exact IH]. Qed.

Lemma substring_prefix a b :
  String.substring 0 (String.length a) (a ++ b) = a.
Proof.
  induction a as [|c a IH]; string_simpl; [by destruct b | by rewrite IH].
Qed.

(** [(a + b)[len(a):] == b] and [(a + b)[:len(a)] == a] *)
Lemma drop_app a b : PyStr.drop (String.length a) (a ++ b) = b.
Proof.
  unfold PyStr.drop. rewrite string_length_app, substring_skip.
  replace (String.length a + String.length b - String.length a)%nat
    with (String.length b) by lia.
  apply substring_all.
Qed.

Lemma take_app a b : PyStr.take (String.length a) (a ++ b) = a.
Proof. apply substring_prefix. Qed.

(** A string that ends with [p] is something followed by [p]. *)
Lemma substring_suffix_inv k m s p :
  String.substring k m s = p → String.length s = (k + m)%nat →
  ∃ pre, s = pre ++ p ∧ String.length pre = k.
Proof.
  revert s. induction k as [|k IH]; intros s Hsub Hlen.
  - exists "". simpl in Hlen. subst m. by rewrite substring_all in Hsub.
  - destruct s as [|c s]; [done|]. simpl in Hsub, Hlen.
    destruct (IH s Hsub ltac:(lia)) as (pre & -> & Hpre).
    exists (String c pre). simpl. by rewrite Hpre.
Qed.

Lemma endswith_inv p s : PyStr.endswith p s = true → ∃ pre, s = pre ++ p.
Proof.
  unfold PyStr.endswith. intros [Hle Heq%String.eqb_eq]%andb_true_iff.
  apply Nat.leb_le in Hle.
  destruct (substring_suffix_inv _ _ _ _ Heq ltac:(lia)) as (pre & Hs & _).
  by exists pre.
Qed.

Lemma endswith_app a p : PyStr.endswith p (a ++ p) = true.
Proof.
  unfold PyStr.endswith. rewrite string_length_app. apply andb_true_iff. split.
  - apply Nat.leb_le. lia.
  - replace (String.length a + String.length p - String.length p)%nat
      with (String.length a) by lia.
    rewrite substring_skip, substring_all. apply String.eqb_refl.
Qed.

Lemma lower_app a b : PyStr.lower (a ++ b) = PyStr.lower a ++ PyStr.lower b.
Proof. induction a as [|c a IH]; string_simpl; [done | by rewrite IH]. Qed.

(** A lower-cased string that splits in two comes from a string that
    splits at the same place. *)
Lemma lower_app_inv s a b :
  PyStr.lower s = a ++ b →
  ∃ a' b', s = a' ++ b' ∧ PyStr.lower a' = a ∧ PyStr.lower b' = b.
Proof.
  revert s. induction a as [|c a IH]; intros s Hs.
  - by exists "", s.
  - destruct s as [|c' s]; [done|]. rewrite string_app_cons in Hs. simpl in Hs.
    injection Hs as Hc Hs.
    destruct (IH s Hs) as (a' & b' & -> & Ha & Hb).
    exists (String c' a'), b'. simpl. by rewrite Hc, Ha.
Qed.

(** Lower-casing neither makes nor removes a dot. *)
Lemma lower_ascii_dot c : PyStr.lower_ascii c = "."%char ↔ c = "."%char.
Proof.
  split; [|by intros ->].
  destruct c as [[] [] [] [] [] [] [] []]; vm_compute; congruence.
Qed.

Lemma rfind_app c a b :
  PyStr.rfind c (a ++ b)
  = match PyStr.rfind c b with
    | Some i => Some (String.length a + i)%nat
    | None => PyStr.rfind c a
    end.
Proof.
  induction a as [|d a IH]; string_simpl.
  - by destruct (PyStr.rfind c b).
  - rewrite IH. by destruct (PyStr.rfind c b).
Qed.

(** The four characters of a suffix whose lower case is a dot and three
    letters: the dot is the last dot. *)
Lemma rfind_dot_suffix a c1 c2 c3 :
  c1 ≠ "."%char → c2 ≠ "."%char → c3 ≠ "."%char →
  PyStr.rfind "." (a ++ String "." (String c1 (String c2 (String c3 ""))))
  = Some (String.length a).
Proof.
  intros H1 H2 H3. rewrite rfind_app. simpl.
  destruct (Ascii.eqb_spec c3 "."); [done|].
  destruct (Ascii.eqb_spec c2 "."); [done|].
  destruct (Ascii.eqb_spec c1 "."); [done|].
  simpl. by rewrite Nat.add_0_r.
Qed.

Lemma rfind_slash_lt a s4 i :
  PyStr.rfind "/" s4 = None → PyStr.rfind "/" (a ++ s4) = Some i →
  (i < String.length a)%nat.
Proof.
  intros Hnone. rewrite rfind_app, Hnone. clear. revert i.
  induction a as [|d a IH]; intros i; simpl; [done|].
  destruct (PyStr.rfind "/" a) as [j|].
  - intros [= <-]. specialize (IH j eq_refl). lia.
  - destruct (Ascii.eqb d "/"); [intros [= <-]; lia | done].
Qed.

End StringFacts.

(** ** What [_select_layer_file] returns *)

Section SelectedFile.
Implicit Types (f : string).

(** The extension [os.path.splitext] finds in a name whose lower case
    ends in a dot and three letters: these four characters, unless the
    name has only dots before them. *)
Lemma splitext_of_suffix f l1 l2 l3 :
  l1 ≠ "."%char → l2 ≠ "."%char → l3 ≠ "."%char →
  PyStr.endswith (String "." (String l1 (String l2 (String l3 "")))) (PyStr.lower f) = true →
  ∃ root ext,
    OsPath.splitext f = (root, ext) ∧ f = root ++ ext
    ∧ (PyStr.lower ext = String "." (String l1 (String l2 (String l3 ""))) ∨ ext = "").
Proof.
  intros H1 H2 H3 [pre Hpre]%endswith_inv.
  apply lower_app_inv in Hpre as (a & b & -> & _ & Hb).
  destruct b as [|c0 [|c1 [|c2 [|c3 [|c4 b]]]]]; try discriminate Hb.
  simpl in Hb. injection Hb as E0 E1 E2 E3. apply lower_ascii_dot in E0 as ->.
  assert (c1 ≠ "."%char) as N1 by (intros ->; by apply H1).
  assert (c2 ≠ "."%char) as N2 by (intros ->; by apply H2).
  assert (c3 ≠ "."%char) as N3 by (intros ->; by apply H3).
  unfold OsPath.splitext. rewrite (rfind_dot_suffix a c1 c2 c3 N1 N2 N3).
  destruct (_ && _)%bool.
  - rewrite take_app, drop_app. eexists _, _. split_and!; [done..|].
    left. simpl. by rewrite E1, E2, E3.
  - eexists _, _. split_and!; [done | by rewrite string_app_nil_r | by right].
Qed.

Lemma eligible_splitext f :
  eligible f = true →
  ∃ root ext,
    OsPath.splitext f = (root, ext) ∧ f = root ++ ext
    ∧ (PyStr.lower ext = ".png" ∨ PyStr.lower ext = ".gif" ∨ ext = "").
Proof.
  unfold eligible, PyStr.endswith_any. simpl.
  intros [Hpng|[Hgif|[=]]%orb_true_iff]%orb_true_iff.
  - destruct (splitext_of_suffix f "p" "n" "g") as (root & ext & ? & ? & [|]);
      [done..| |]; exists root, ext; tauto.
  - destruct (splitext_of_suffix f "g" "i" "f") as (root & ext & ? & ? & [|]);
      [done..| |]; exists root, ext; tauto.
Qed.

Lemma nth_mod_elem (l : list string) (k : nat) :
  l ≠ [] → nth (k mod length l) l "" ∈ l.
Proof.
  intros Hl. apply list_elem_of_In, nth_In, Nat.mod_upper_bound.
  by destruct l.
Qed.

(** The outcome of one call, spelled out. *)
Lemma select_layer_file_spec (self : CharacterGenerator) (layer : string) (w : world) :
  match _select_layer_file self layer w with
  | (Some layer_file, w') =>
      ∃ entries,
        listdir (os self) (OsPath.join (base_dir self) layer) = Some entries
        ∧ filename layer_file ∈ entries
        ∧ eligible (filename layer_file) = true
        ∧ path layer_file
          = OsPath.join (OsPath.join (base_dir self) layer) (filename layer_file)
        ∧ type layer_file
          = PyStr.drop 1 (PyStr.lower (snd (OsPath.splitext (filename layer_file))))
        ∧ w' = tick_rng w
  | (None, w') => no_eligible_files self layer ∧ w' = w
  end.
Proof.
  unfold _select_layer_file, no_eligible_files.
  destruct (listdir _ _) as [entries|] eqn:Hdir; [|split; [by left | done]].
  destruct (List.filter eligible entries) as [|f0 fs] eqn:Hfs.
  - split; [right; by exists entries | done].
  - simpl. exists entries.
    assert (∀ x, x ∈ f0 :: fs → x ∈ entries ∧ eligible x = true) as Hfrom.
    { intros x Hx. rewrite <- Hfs in Hx.
      apply list_elem_of_In, filter_In in Hx as [Hx Hel].
      split; [by apply list_elem_of_In | done]. }
    destruct (Hfrom _ (nth_mod_elem (f0 :: fs) (draws (os self) (rng_pos w)) ltac:(done)))
      as [Hin Hel].
    by split_and!.
Qed.

End SelectedFile.

(** X1. When [_select_layer_file] returns a file, that file is one of
    the entries of the layer's own directory, its name ends in [.png] or
    [.gif] up to case, its path is the directory joined with the name,
    and exactly one random number was drawn; when it returns [None], the
    directory is absent or lists no eligible file, and nothing changed. *)
Theorem select_layer_file_returns_an_eligible_entry
    (self : CharacterGenerator) (layer : string) (w : world) :
  match _select_layer_file self layer w with
  | (Some layer_file, w') =>
      ∃ entries,
        listdir (os self) (OsPath.join (base_dir self) layer) = Some entries
        ∧ filename layer_file ∈ entries
        ∧ PyStr.endswith_any [".png"; ".gif"] (PyStr.lower (filename layer_file)) = true
        ∧ path layer_file
          = OsPath.join (OsPath.join (base_dir self) layer) (filename layer_file)
        ∧ rng_pos w' = S (rng_pos w)
        ∧ w' = tick_rng w
  | (None, w') => no_eligible_files self layer ∧ w' = w
  end.
Proof.
  pose proof (select_layer_file_spec self layer w) as H.
  destruct (_select_layer_file self layer w) as [[layer_file|] w']; [|done].
  destruct H as (entries & Hdir & Hin & Hel & Hpath & _ & ->).
  by exists entries.
Qed.

(** X2. The [type] of a selected file is ['png'], ['gif'] or the empty
    string (for a name such as [.gif], in which [os.path.splitext] sees
    no extension); it is ['gif'] only for a name that ends in [.gif] up
    to case and ['png'] only for one that ends in [.png]; and the name is
    always the [splitext] root, which becomes the trait value, followed
    by the extension. *)
Theorem selected_file_type_follows_its_name
    (self : CharacterGenerator) (layer : string) (w w' : world) (layer_file : layer_file) :
  _select_layer_file self layer w = (Some layer_file, w') →
  (type layer_file = "png" ∨ type layer_file = "gif" ∨ type layer_file = "")
  ∧ (type layer_file = "gif" →
     PyStr.endswith ".gif" (PyStr.lower (filename layer_file)) = true)
  ∧ (type layer_file = "png" →
     PyStr.endswith ".png" (PyStr.lower (filename layer_file)) = true)
  ∧ filename layer_file
    = fst (OsPath.splitext (filename layer_file))
        ++ snd (OsPath.splitext (filename layer_file)).
Proof.
  intros Hsel. pose proof (select_layer_file_spec self layer w) as H.
  rewrite Hsel in H. destruct H as (entries & _ & _ & Hel & _ & Htype & _).
  destruct (eligible_splitext _ Hel) as (root & ext & Hsplit & Hname & Hext).
  rewrite Htype, Hsplit. simpl.
  assert (PyStr.lower (filename layer_file) = PyStr.lower root ++ PyStr.lower ext) as Hlow.
  { rewrite Hname at 1. apply lower_app. }
  split_and!.
  - destruct Hext as [->|[->| ->]]; auto.
  - destruct Hext as [E|[E| ->]]; rewrite ?E; try discriminate.
    intros _. rewrite Hlow, E. apply endswith_app.
  - destruct Hext as [E|[E| ->]]; rewrite ?E; try discriminate.
    intros _. rewrite Hlow, E. apply endswith_app.
  - exact Hname.
Qed.

(** X2 at a concrete input: the second background is [stars.gif]. *)
Lemma selected_file_type_follows_its_name_witness :
  let self := Fixtures.gen Fixtures.three_layers 1 10 [1]%nat in
  fst (_select_layer_file self "Background" fresh) = Some Fixtures.stars_file
  ∧ PyStr.endswith ".gif" (PyStr.lower "stars.gif") = true.
Proof.
  intros self. split; [reflexivity|].
  destruct (selected_file_type_follows_its_name self "Background" fresh (tick_rng fresh)
              Fixtures.stars_file eq_refl) as (_ & Hgif & _).
  apply Hgif. reflexivity.
Defined.

(** The empty type does occur: a file named [.gif] is eligible, has no
    extension for [os.path.splitext], and so is handled as a still. *)
Example dotfile_has_empty_type :
  fst (_select_layer_file Fixtures.dotfile "Background" fresh)
  = Some (LayerFile "nft_layers/Background/.gif" "" ".gif").
Proof. reflexivity. Qed.

(** ** What a selection holds and what it costs *)

Section SelectionContents.
Context (self : CharacterGenerator).
Implicit Types (order : list string) (d : dict layer_file) (w : world).

Lemma select_into_entries order d w :
  (∀ layer lf, dict_get d layer = Some lf → from_layer_directory self layer lf) →
  ∀ layer lf, dict_get (fst (select_into self order d w)) layer = Some lf →
              from_layer_directory self layer lf.
Proof.
  revert d w. induction order as [|l rest IH]; intros d w Hd; simpl; [done|].
  pose proof (select_layer_file_spec self l w) as Hspec.
  destruct (_select_layer_file self l w) as [[lf0|] w1]; [|by apply IH].
  apply IH. intros layer lf.
  destruct (decide (l = layer)) as [<-|Hne].
  - rewrite dict_get_set_eq. intros [= <-].
    destruct Hspec as (entries & ? & ? & ? & ? & _). by exists entries.
  - rewrite dict_get_set_ne by done. apply Hd.
Qed.

Lemma select_into_draws order d w :
  rng_pos (snd (select_into self order d w))
  = (rng_pos w + length (List.filter (has_files self) order))%nat.
Proof.
  revert d w. induction order as [|l rest IH]; intros d w; simpl; [lia|].
  destruct (has_files self l) eqn:Hl.
  - destruct (select_layer_file_Some self l w Hl) as [lf ->].
    rewrite IH. simpl. lia.
  - rewrite (select_layer_file_None self l w Hl). apply IH.
Qed.

End SelectionContents.

(** X3. The selection an attempt builds has an entry for a layer exactly
    when the layer is listed in the configured order and its directory
    holds an eligible file, and every entry is an eligible file of the
    directory of its own layer, with the path of that directory. *)
Theorem selection_holds_a_file_of_each_available_layer
    (self : CharacterGenerator) (order : list string) (w : world) :
  (∀ layer, is_Some (dict_get (fst (select_layers self order w)) layer)
            ↔ layer ∈ order ∧ has_files self layer = true)
  ∧ (∀ layer layer_file,
       dict_get (fst (select_layers self order w)) layer = Some layer_file →
       from_layer_directory self layer layer_file).
Proof.
  split.
  - intros layer.
    assert (is_Some (dict_get (fst (select_layers self order w)) layer)
            ↔ layer ∈ keys (fst (select_layers self order w))) as ->.
    { pose proof (dict_get_None (fst (select_layers self order w)) layer) as Hn.
      destruct (dict_get _ layer) as [lf|].
      - split; [|by eexists]. intros _.
        destruct (decide (layer ∈ keys (fst (select_layers self order w)))); [done|].
        by apply Hn in n.
      - split; [by intros [? [=]] | intros Hin]. by apply Hn in Hin. }
    unfold select_layers. rewrite select_into_keys, elem_of_selected_keys. simpl.
    split; [intros [[]%elem_of_nil|]; done | by right].
  - apply select_into_entries. intros layer lf [=].
Qed.

(** X4. One run of the selection loop draws exactly one random number
    for every entry of the configured order whose layer has files (a name
    listed twice is drawn twice), and changes nothing else: the registry,
    the clock, the saved files and the output stay as they were. *)
Theorem selection_draws_once_per_available_layer
    (self : CharacterGenerator) (order : list string) (w : world) :
  rng_pos (reselect self order w)
  = (rng_pos w + length (List.filter (has_files self) order))%nat
  ∧ generated_dnas (reselect self order w) = generated_dnas w
  ∧ clock_pos (reselect self order w) = clock_pos w
  ∧ saved_images (reselect self order w) = saved_images w
  ∧ saved_json (reselect self order w) = saved_json w
  ∧ stdout (reselect self order w) = stdout w.
Proof.
  split; [apply select_into_draws | apply (select_into_frame self order [] w)].
Qed.

(** ** The shape of a DNA *)

Section DnaShape.

Lemma list_ascii_app (a b : string) :
  list_ascii_of_string (a ++ b)
  = (list_ascii_of_string a ++ list_ascii_of_string b)%list.
Proof.
  induction a as [|c a IH]; [done|].
  rewrite string_app_cons. simpl. by rewrite IH.
Qed.

Lemma hex_digit_is_hex (d : Z) : 0 ≤ d < 16 → is_hex (Sha1.hex_digit d) = true.
Proof.
  intros Hd. replace d with (Z.of_nat (Z.to_nat d)) by lia.
  assert (Z.to_nat d < 16)%nat as Hn by lia. revert Hn.
  generalize (Z.to_nat d) as n. intros n Hn.
  do 16 (destruct n as [|n]; [reflexivity|]). lia.
Qed.

Lemma hex_word_shape (n : nat) (w : Z) :
  String.length (Sha1.hex_word n w) = n
  ∧ forallb is_hex (list_ascii_of_string (Sha1.hex_word n w)) = true.
Proof.
  induction n as [|n [IHlen IHhex]]; [done|]. simpl. split; [by rewrite IHlen|].
  rewrite IHhex, andb_true_r. apply hex_digit_is_hex.
  change 15 with (Z.ones 4). rewrite Z.land_ones by lia.
  apply Z.mod_pos_bound. lia.
Qed.

End DnaShape.

(** X5. The DNA of every selection, the empty one included, is a string
    of exactly 40 characters, each a lower-case hexadecimal digit. *)
Theorem dna_is_forty_hex_digits (layers : dict layer_file) :
  String.length (_generate_dna_hash layers) = 40%nat
  ∧ forallb is_hex (list_ascii_of_string (_generate_dna_hash layers)) = true.
Proof.
  unfold _generate_dna_hash, Sha1.hexdigest. cbv zeta.
  generalize (Sha1.blocks
                (length (Sha1.words_of_bytes
                           (length (Sha1.pad (Sha1.bytes_of_string (dna_string layers))))
                           (Sha1.pad (Sha1.bytes_of_string (dna_string layers)))))
                (Sha1.words_of_bytes
                   (length (Sha1.pad (Sha1.bytes_of_string (dna_string layers))))
                   (Sha1.pad (Sha1.bytes_of_string (dna_string layers))))
                Sha1.init) as r.
  intros r. split.
  - rewrite !string_length_app.
    by rewrite !(proj1 (hex_word_shape 8 _)).
  - rewrite !list_ascii_app, !forallb_app.
    by rewrite !(proj2 (hex_word_shape 8 _)).
Qed.

(** ** More on the two compositing methods *)

Section CompositingOutcome.
Context (self : CharacterGenerator).
Implicit Types (selected_layers : dict layer_file) (edition : Z) (w : world).

Lemma paste_static_layers_ok (its : list (string * layer_file)) (canvas : image) :
  (∀ layer_name layer_info, (layer_name, layer_info) ∈ its →
     skipped layer_name layer_info = false →
     is_Some (open_image (os self) (path layer_info))) →
  paste_static_layers self its canvas
  = Ok (fold_left (fun canvas layer_image => PasteMask canvas layer_image layer_image)
                  (overlays its) canvas).
Proof.
  revert canvas. induction its as [|[layer_name layer_info] rest IH]; intros canvas Hopen.
  - reflexivity.
  - assert (∀ k i, (k, i) ∈ rest → skipped k i = false →
                   is_Some (open_image (os self) (path i))) as Hrest.
    { intros k i Hin. apply Hopen. by right. }
    cbn [paste_static_layers]. unfold overlays, items. cbn [List.filter fst snd].
    destruct (skipped layer_name layer_info) eqn:Hskip; cbn [negb].
    + by apply IH.
    + destruct (Hopen layer_name layer_info ltac:(left) Hskip) as [f Hf].
      rewrite (decoded_Some self _ _ Hf).
      cbn [map fold_left fst snd]. by apply IH.
Qed.

(** Both loops stop at the first layer they need and Pillow fails on,
    with the exception Pillow raised. *)
Lemma paste_static_layers_fails before layer_name layer_info after canvas e :
  (∀ k i, (k, i) ∈ before → skipped k i = false →
          is_Some (open_image (os self) (path i))) →
  skipped layer_name layer_info = false →
  PIL.decoded (os self) (path layer_info) = Raise e →
  paste_static_layers self (before ++ (layer_name, layer_info) :: after) canvas
  = Raise e.
Proof.
  intros Hbefore Hskip Hnone. revert canvas.
  induction before as [|[k i] rest IH]; intros canvas.
  - simpl. by rewrite Hskip, Hnone.
  - assert (∀ k' i', (k', i') ∈ rest → skipped k' i' = false →
                     is_Some (open_image (os self) (path i'))) as Hrest.
    { intros k' i' Hin. apply Hbefore. by right. }
    cbn [app paste_static_layers]. destruct (skipped k i) eqn:Hs; [by apply IH|].
    destruct (Hbefore k i ltac:(left) Hs) as [f Hf].
    rewrite (decoded_Some self _ _ Hf). by apply IH.
Qed.

Lemma open_static_layers_fails before layer_name layer_info after acc e :
  (∀ k i, (k, i) ∈ before → skipped k i = false →
          is_Some (open_image (os self) (path i))) →
  skipped layer_name layer_info = false →
  PIL.decoded (os self) (path layer_info) = Raise e →
  open_static_layers self (before ++ (layer_name, layer_info) :: after) acc
  = Raise e.
Proof.
  intros Hbefore Hskip Hnone. revert acc.
  induction before as [|[k i] rest IH]; intros acc.
  - simpl. by rewrite Hskip, Hnone.
  - assert (∀ k' i', (k', i') ∈ rest → skipped k' i' = false →
                     is_Some (open_image (os self) (path i'))) as Hrest.
    { intros k' i' Hin. apply Hbefore. by right. }
    cbn [app open_static_layers]. destruct (skipped k i) eqn:Hs; [by apply IH|].
    destruct (Hbefore k i ltac:(left) Hs) as [f Hf].
    rewrite (decoded_Some self _ _ Hf). by apply IH.
Qed.

(** When every layer it needs is readable, "Prepare static layers"
    returns. *)
Lemma open_static_layers_returns (its : list (string * layer_file)) (acc : dict image) :
  (∀ k i, (k, i) ∈ its → skipped k i = false →
          is_Some (open_image (os self) (path i))) →
  ∃ static_layers, open_static_layers self its acc = Ok static_layers.
Proof.
  revert acc. induction its as [|[k i] rest IH]; intros acc Hopen; simpl; [by eexists|].
  assert (∀ k' i', (k', i') ∈ rest → skipped k' i' = false →
                   is_Some (open_image (os self) (path i'))) as Hrest.
  { intros k' i' Hin. apply Hopen. by right. }
  destruct (skipped k i) eqn:Hs; [by apply IH|].
  destruct (Hopen k i ltac:(left) Hs) as [f Hf].
  rewrite (decoded_Some self _ _ Hf). by apply IH.
Qed.

End CompositingOutcome.

(** X6. A compositing step either raises, and then has saved and printed
    nothing, and the exception is the [TypeError] of a missing
    background, the [IndexError] of an animated background without
    frames, or the exception Pillow raised on the file of an entry of the
    selection, whatever its class; or it returns
    [<output>/images/<edition>.png] or [.gif], having saved exactly one
    artifact of that kind under that path and printed one line. *)
Theorem compositing_saves_one_file_or_nothing
    (self : CharacterGenerator) (selected_layers : dict layer_file) (edition : Z)
    (w : world) :
  match composite self selected_layers edition w with
  | (Raise e, w') =>
      w' = w
      ∧ (e = TypeError "'NoneType' object is not subscriptable"
         ∨ e = IndexError "list index out of range"
         ∨ ∃ layer_name layer_info,
             (layer_name, layer_info) ∈ items selected_layers
             ∧ PIL.decoded (os self) (path layer_info) = Raise e)
  | (Ok p, w') =>
      (p = OsPath.join3 (output_dir self) "images" (PyStr.of_int edition ++ ".png")
       ∧ ∃ im, w' = print ("Generated character PNG: " ++ p)
                          (save_image p (SavedPng im) w))
      ∨ (p = OsPath.join3 (output_dir self) "images" (PyStr.of_int edition ++ ".gif")
         ∧ ∃ first rest duration,
             w' = print ("Generated character GIF: " ++ p)
                        (save_image p (SavedGif first rest duration 0) w))
  end.
Proof.
  destruct (composite self selected_layers edition w) as [[p|e] w'] eqn:Hrun.
  - revert Hrun. unfold composite.
    assert (_generate_png_character self selected_layers edition w = (Ok p, w') →
            p = OsPath.join3 (output_dir self) "images" (PyStr.of_int edition ++ ".png")
            ∧ ∃ im, w' = print ("Generated character PNG: " ++ p)
                               (save_image p (SavedPng im) w)) as Hpng.
    { unfold _generate_png_character.
      destruct (dict_get _ _) as [background|]; [|done].
      destruct (PIL.decoded _ _); [|done].
      destruct (paste_static_layers _ _ _) as [im|e]; [|done].
      intros [= <- <-]. split; [done | by exists im]. }
    destruct (dict_get selected_layers "Background") as [background|] eqn:Hbg;
      [|intros H; left; by apply Hpng].
    destruct (String.eqb (type background) "gif"); [|intros H; left; by apply Hpng].
    unfold _generate_gif_character. rewrite Hbg.
    destruct (PIL.open_raises _ _); [done|].
    destruct (open_static_layers _ _ _) as [static_layers|e]; [|done].
    destruct (PIL.decoded _ _); [|done].
    destruct (map _ _) as [|first rest]; [done|].
    intros [= <- <-]. right. split; [done | by eexists _, _, _].
  - split.
    + pose proof (composite_composited self selected_layers edition w) as Hc.
      rewrite Hrun in Hc. by inversion Hc.
    + apply composite_raises in Hrun as [->|[->|H]]; [by left | right; by left |].
      right; right. exact H.
Qed.

(** X7. When the selection has a background that opens, and its other
    non-animated layers open too, the static path returns
    [<output>/images/<edition>.png] after saving one image: the first
    frame of the background, with the layers that are neither the
    background nor of type ['gif'] pasted on it in dictionary order, each
    through its own alpha channel. Animated layers are left out. *)
Theorem png_path_pastes_the_static_layers_in_order
    (self : CharacterGenerator) (selected_layers : dict layer_file) (edition : Z)
    (w : world) (background : layer_file) :
  dict_get selected_layers "Background" = Some background →
  is_Some (open_image (os self) (path background)) →
  (∀ layer_name layer_info, (layer_name, layer_info) ∈ items selected_layers →
     skipped layer_name layer_info = false →
     is_Some (open_image (os self) (path layer_info))) →
  let p := OsPath.join3 (output_dir self) "images" (PyStr.of_int edition ++ ".png") in
  _generate_png_character self selected_layers edition w
  = (Ok p,
     print ("Generated character PNG: " ++ p)
           (save_image p (SavedPng (composed (path background) (overlays selected_layers) 0))
                       w)).
Proof.
  intros Hbg [f Hopen] Hlayers p. unfold _generate_png_character.
  rewrite Hbg, (decoded_Some self _ _ Hopen). by rewrite paste_static_layers_ok.
Qed.

(** X7 at a concrete input: an animated hat is in the selection and not
    in the picture. *)
Lemma png_path_pastes_the_static_layers_in_order_witness :
  let self := Fixtures.gen Fixtures.three_layers 1 10 [] in
  let selected_layers :=
    [("Background", Fixtures.sky); ("Hat", Fixtures.stars_file); ("Body", Fixtures.robot)] in
  let sky := ConvertRGBA (Frame "nft_layers/Background/sky.png" 0) in
  let robot := ConvertRGBA (Frame "nft_layers/Body/robot.png" 0) in
  saved_images (snd (_generate_png_character self selected_layers 7 fresh))
  = [("output/images/7.png", SavedPng (PasteMask (Paste (NewRGBA sky) sky) robot robot))].
Proof.
  intros self selected_layers sky robot.
  rewrite (png_path_pastes_the_static_layers_in_order self selected_layers 7 fresh
             Fixtures.sky).
  - reflexivity.
  - reflexivity.
  - by eexists.
  - intros layer_name layer_info Hin Hskip. unfold selected_layers, items in Hin.
    apply elem_of_cons in Hin as [[= -> ->]|Hin]; [discriminate Hskip|].
    apply elem_of_cons in Hin as [[= -> ->]|Hin]; [discriminate Hskip|].
    apply list_elem_of_singleton in Hin as [= -> ->]. by eexists.
Defined.

(** X8. Pillow reads the files in a fixed order, and the first file it
    fails on ends the compositing with the exception Pillow raised,
    nothing being saved or printed. The static path decodes the
    background first and then the layers in dictionary order, skipping
    the background entry and the layers of type ['gif']. The animated
    path opens the background, then decodes these layers in the same
    order, and decodes the frames of the background last: a background
    that opens but cannot be decoded is reported only when every layer
    was readable. *)
Theorem compositing_fails_on_the_first_unreadable_file
    (self : CharacterGenerator) (selected_layers : dict layer_file) (edition : Z)
    (w : world) (background : layer_file) :
  dict_get selected_layers "Background" = Some background →
  (∀ e, PIL.decoded (os self) (path background) = Raise e →
        _generate_png_character self selected_layers edition w = (Raise e, w))
  ∧ (∀ e, PIL.open_raises (os self) (path background) = Some e →
          _generate_gif_character self selected_layers edition w = (Raise e, w))
  ∧ (∀ before layer_name layer_info after e,
       items selected_layers = (before ++ (layer_name, layer_info) :: after)%list →
       (∀ k i, (k, i) ∈ before → skipped k i = false →
               is_Some (open_image (os self) (path i))) →
       skipped layer_name layer_info = false →
       PIL.decoded (os self) (path layer_info) = Raise e →
       (is_Some (open_image (os self) (path background)) →
        _generate_png_character self selected_layers edition w = (Raise e, w))
       ∧ (PIL.open_raises (os self) (path background) = None →
          _generate_gif_character self selected_layers edition w = (Raise e, w)))
  ∧ (∀ e,
       PIL.open_raises (os self) (path background) = None →
       (∀ k i, (k, i) ∈ items selected_layers → skipped k i = false →
               is_Some (open_image (os self) (path i))) →
       PIL.decoded (os self) (path background) = Raise e →
       _generate_gif_character self selected_layers edition w = (Raise e, w)).
Proof.
  intros Hbg. split_and!.
  - intros e Hdec. unfold _generate_png_character. by rewrite Hbg, Hdec.
  - intros e Hopen. unfold _generate_gif_character. by rewrite Hbg, Hopen.
  - intros before layer_name layer_info after e Hitems Hbefore Hskip Hdec. split.
    + intros [f Hopen]. unfold _generate_png_character.
      rewrite Hbg, (decoded_Some self _ _ Hopen), Hitems.
      by rewrite (paste_static_layers_fails self _ _ _ _ _ e).
    + intros Hopen. unfold _generate_gif_character.
      rewrite Hbg, Hopen, Hitems.
      by rewrite (open_static_layers_fails self _ _ _ _ _ e).
  - intros e Hopen Hlayers Hdec. unfold _generate_gif_character.
    rewrite Hbg, Hopen.
    destruct (open_static_layers_returns self (items selected_layers) [] Hlayers)
      as [static_layers ->].
    by rewrite Hdec.
Qed.

(** X8 at a concrete input: [stars.gif] opens but cannot be decoded and
    [cat.PNG] is not an image. The animated path fails on [cat.PNG], which
    it reads before the frames of the background; the static path fails
    on the background. *)
Lemma compositing_fails_on_the_first_unreadable_file_witness :
  let self := Fixtures.truncated 1 1 [] in
  _generate_gif_character self Fixtures.stars_robot_cat 1 fresh
  = (Raise (OtherError "UnidentifiedImageError" "nft_layers/Body/cat.PNG"), fresh)
  ∧ _generate_png_character self Fixtures.stars_robot_cat 1 fresh
    = (Raise (OSError "nft_layers/Background/stars.gif"), fresh).
Proof.
  intros self.
  destruct (compositing_fails_on_the_first_unreadable_file self Fixtures.stars_robot_cat 1
              fresh Fixtures.stars_file eq_refl) as (Hpng & _ & Hlayer & _).
  split.
  - apply (Hlayer [("Background", Fixtures.stars_file); ("Body", Fixtures.robot)]
                  "Hat" Fixtures.cat []);
      [reflexivity | | reflexivity | reflexivity | reflexivity].
    intros k i Hin Hskip.
    apply elem_of_cons in Hin as [[= -> ->]|Hin]; [discriminate Hskip|].
    apply list_elem_of_singleton in Hin as [= -> ->]. by eexists.
  - apply Hpng. reflexivity.
Defined.

(** ** The attempts of [generate_character], one by one *)

Section Attempts.
Context (self : CharacterGenerator).
Implicit Types (order : list string) (edition max_attempts : Z) (w : world).

(** One turn of the loop. *)
Lemma attempts_S n order edition max_attempts w :
  attempts self (S n) order edition max_attempts w
  = if decide (_generate_dna_hash (fst (select_layers self order w)) ∈ generated_dnas w)
    then attempts self n order edition max_attempts (reselect self order w)
    else
      match composite self (fst (select_layers self order w)) edition
                      (add_dna (_generate_dna_hash (fst (select_layers self order w)))
                               (reselect self order w)) with
      | (Raise e, w3) => (Raise e, w3)
      | (Ok p, w3) =>
          (Ok (metadata_for self order edition (fst (select_layers self order w))
                            (_generate_dna_hash (fst (select_layers self order w))) p
                            (now_ms (os self) (clock_pos w3))),
           save_json (json_path self edition)
                     (metadata_for self order edition (fst (select_layers self order w))
                                   (_generate_dna_hash (fst (select_layers self order w))) p
                                   (now_ms (os self) (clock_pos w3)))
                     (tick_clock w3))
      end.
Proof.
  cbn [attempts]. pose proof (reselect_registry self order w) as Hreg.
  unfold reselect in *. destruct (select_layers self order w) as [sl w1].
  cbn [fst snd] in *. rewrite Hreg.
  case_decide; [done|]. by destruct (composite _ _ _ _) as [[p|e] w3].
Qed.

Lemma collides_shift order w i :
  collides self order (reselect self order w) i ↔ collides self order w (S i).
Proof. unfold collides. by rewrite Nat.iter_succ_r, reselect_registry. Qed.

(** The loop, read from its result: either all [n] attempts collided and
    the exhaustion error is raised after [n] selections, or some attempt
    [k] is the first with a new DNA, and its compositing decides. *)
Lemma attempts_inv n order edition max_attempts w r w' :
  attempts self n order edition max_attempts w = (r, w') →
  (r = Raise (exhausted max_attempts)
   ∧ w' = Nat.iter n (reselect self order) w
   ∧ ∀ i, (i < n)%nat → collides self order w i)
  ∨ ∃ k, (k < n)%nat
      ∧ (∀ i, (i < k)%nat → collides self order w i)
      ∧ ¬ collides self order w k
      ∧ ∃ res w3,
          composite self
            (fst (select_layers self order (Nat.iter k (reselect self order) w))) edition
            (add_dna
               (_generate_dna_hash
                  (fst (select_layers self order (Nat.iter k (reselect self order) w))))
               (Nat.iter (S k) (reselect self order) w))
          = (res, w3)
          ∧ match res with
            | Raise e => r = Raise e ∧ w' = w3
            | Ok p =>
                r = Ok (metadata_for self order edition
                          (fst (select_layers self order (Nat.iter k (reselect self order) w)))
                          (_generate_dna_hash
                             (fst (select_layers self order
                                     (Nat.iter k (reselect self order) w))))
                          p (now_ms (os self) (clock_pos w3)))
                ∧ w' = save_json (json_path self edition)
                         (metadata_for self order edition
                            (fst (select_layers self order
                                    (Nat.iter k (reselect self order) w)))
                            (_generate_dna_hash
                               (fst (select_layers self order
                                       (Nat.iter k (reselect self order) w))))
                            p (now_ms (os self) (clock_pos w3)))
                         (tick_clock w3)
            end.
Proof.
  revert w. induction n as [|n IH]; intros w.
  - intros [= <- <-]. left. split_and!; [done..|]. intros i Hi. lia.
  - rewrite attempts_S. case_decide as Hin.
    + intros [Hall | (k & Hk & Hbefore & Hnew & res & w3 & Hc & Hres)]%IH.
      * left. destruct Hall as (-> & -> & Hall). split_and!; [done| |].
        -- by rewrite Nat.iter_succ_r.
        -- intros [|i] Hi; [exact Hin|].
           apply (proj1 (collides_shift order w i)), Hall. lia.
      * right. exists (S k). split_and!; [lia| | |].
        -- intros [|i] Hi; [exact Hin|].
           apply (proj1 (collides_shift order w i)), Hbefore. lia.
        -- intros Hc'. apply Hnew, (proj2 (collides_shift order w k)), Hc'.
        -- exists res, w3. rewrite !(Nat.iter_succ_r _ (reselect self order) w).
           split; [exact Hc | exact Hres].
    + intros Hrun. right. exists 0%nat. split_and!; [lia | intros i Hi; lia | exact Hin |].
      cbn [Nat.iter].
      destruct (composite _ _ _ _) as [[p|e] w3]; injection Hrun as <- <-;
        eexists _, _; (split; [reflexivity|]); done.
Qed.

Lemma reselect_frame order w :
  generated_dnas (reselect self order w) = generated_dnas w
  ∧ clock_pos (reselect self order w) = clock_pos w
  ∧ saved_images (reselect self order w) = saved_images w
  ∧ saved_json (reselect self order w) = saved_json w
  ∧ stdout (reselect self order w) = stdout w.
Proof. apply (select_into_frame self order [] w). Qed.

(** What the worlds met along the loop share with the first one. *)
Lemma iter_reselect_frame order k w :
  generated_dnas (Nat.iter k (reselect self order) w) = generated_dnas w
  ∧ clock_pos (Nat.iter k (reselect self order) w) = clock_pos w
  ∧ saved_images (Nat.iter k (reselect self order) w) = saved_images w
  ∧ saved_json (Nat.iter k (reselect self order) w) = saved_json w
  ∧ stdout (Nat.iter k (reselect self order) w) = stdout w.
Proof.
  induction k as [|k IH]; [done|]. rewrite Nat.iter_succ.
  destruct (reselect_frame order (Nat.iter k (reselect self order) w))
    as (-> & -> & -> & -> & ->). exact IH.
Qed.

End Attempts.

(** ** What a call of [generate_character] leaves behind *)

Section CallEffects.
Context (self : CharacterGenerator).
Implicit Types (order : list string) (edition max_attempts : Z) (w : world).

Lemma join_suffix (a b : string) : ∃ pre, OsPath.join a b = pre ++ b.
Proof.
  unfold OsPath.join. destruct (PyStr.startswith "/" b); [by exists ""|].
  destruct (_ || _)%bool; [by exists a|].
  exists (a ++ "/"). by rewrite string_app_assoc.
Qed.

(** [p.split('.')[-1]] of an output path is its extension, also when the
    output directory has dots in its name. *)
Lemma after_last_dot_image_path edition ext :
  ext = "png" ∨ ext = "gif" →
  PyStr.after_last_dot (image_path_for self edition ext) = ext.
Proof.
  intros Hext. unfold image_path_for, OsPath.join3.
  destruct (join_suffix (OsPath.join (output_dir self) "images")
                        (PyStr.of_int edition ++ "." ++ ext)) as [pre ->].
  rewrite <- string_app_assoc. unfold PyStr.after_last_dot.
  destruct Hext as [-> | ->].
  - rewrite (rfind_dot_suffix _ "p" "n" "g") by done.
    change (String "." "png") with ("." ++ "png"). rewrite <- string_app_assoc.
    replace (S (String.length (pre ++ PyStr.of_int edition)))
      with (String.length ((pre ++ PyStr.of_int edition) ++ "."))
      by (rewrite (string_length_app _ "."); simpl; lia).
    apply drop_app.
  - rewrite (rfind_dot_suffix _ "g" "i" "f") by done.
    change (String "." "gif") with ("." ++ "gif"). rewrite <- string_app_assoc.
    replace (S (String.length (pre ++ PyStr.of_int edition)))
      with (String.length ((pre ++ PyStr.of_int edition) ++ "."))
      by (rewrite (string_length_app _ "."); simpl; lia).
    apply drop_app.
Qed.

Lemma composite_Ok_inv selected_layers edition w p w3 :
  composite self selected_layers edition w = (Ok p, w3) →
  ∃ ext a line,
    (ext = "png" ∨ ext = "gif")
    ∧ p = image_path_for self edition ext
    ∧ w3 = print line (save_image p a w)
    ∧ (ext = "gif" ↔ ∃ first rest duration, a = SavedGif first rest duration 0).
Proof.
  assert (∀ sl, _generate_png_character self sl edition w = (Ok p, w3) →
                ∃ ext a line,
                  (ext = "png" ∨ ext = "gif")
                  ∧ p = image_path_for self edition ext
                  ∧ w3 = print line (save_image p a w)
                  ∧ (ext = "gif" ↔ ∃ first rest duration, a = SavedGif first rest duration 0))
    as Hpng.
  { intros sl. unfold _generate_png_character.
    destruct (dict_get sl "Background") as [background|]; [|done].
    destruct (PIL.decoded _ _); [|done].
    destruct (paste_static_layers _ _ _) as [im|e]; [|done].
    intros [= <- <-]. exists "png", (SavedPng im). eexists.
    split_and!; [by left | done | done |].
    split; [done | by intros (? & ? & ? & [=])]. }
  unfold composite.
  destruct (dict_get selected_layers "Background") as [background|] eqn:Hbg; [|apply Hpng].
  destruct (String.eqb (type background) "gif"); [|apply Hpng].
  unfold _generate_gif_character. rewrite Hbg.
  destruct (PIL.open_raises _ _); [done|].
  destruct (open_static_layers _ _ _) as [static_layers|e]; [|done].
  destruct (PIL.decoded _ _); [|done].
  destruct (map _ _) as [|first rest]; [done|].
  intros [= <- <-]. exists "gif". eexists _, _.
  split_and!; [by right | done | done |].
  split; [by eexists _, _, _ | done].
Qed.

Lemma composite_Raise_inv selected_layers edition w e w3 :
  composite self selected_layers edition w = (Raise e, w3) → w3 = w.
Proof.
  intros Hrun. pose proof (composite_composited self selected_layers edition w) as Hc.
  rewrite Hrun in Hc. by inversion Hc.
Qed.

(** A call that returns: the record it returns and the files it wrote. *)
Lemma attempts_Ok_effects n order edition max_attempts w md w' :
  attempts self n order edition max_attempts w = (Ok md, w') →
  ∃ ext a line,
    (ext = "png" ∨ ext = "gif")
    ∧ name md = collection_name (cfg self) ++ " #" ++ PyStr.of_int edition
    ∧ description md = collection_description (cfg self)
    ∧ compiler md = compiler_tag (cfg self)
    ∧ edition_no md = edition
    ∧ image_uri md = ipfs_base_uri (cfg self) ++ PyStr.of_int edition ++ "." ++ ext
    ∧ date md = now_ms (os self) (clock_pos w)
    ∧ saved_images w' = (saved_images w ++ [(image_path_for self edition ext, a)])%list
    ∧ (ext = "gif" ↔ ∃ first rest duration, a = SavedGif first rest duration 0)
    ∧ saved_json w' = (saved_json w ++ [(json_path self edition, md)])%list
    ∧ stdout w' = (stdout w ++ [line])%list
    ∧ clock_pos w' = S (clock_pos w).
Proof.
  intros [(Hr & _) | (k & _ & _ & _ & res & w3 & Hc & Hres)]%attempts_inv; [done|].
  destruct res as [p|e]; [|by destruct Hres].
  destruct Hres as ([= ->] & ->).
  apply composite_Ok_inv in Hc as (ext & a & line & Hext & -> & -> & Hkind).
  destruct (iter_reselect_frame self order (S k) w) as (_ & Hclock & Himg & Hjson & Hout).
  exists ext, a, line. cbn -[Nat.iter image_path_for json_path PyStr.after_last_dot].
  rewrite after_last_dot_image_path, Hclock, Himg, Hjson, Hout by done.
  by split_and!.
Qed.

(** A call that raises has written nothing; the registry is as it was,
    or holds one DNA more, that of the selection whose compositing
    raised. *)
Lemma attempts_Raise_effects n order edition max_attempts w e w' :
  attempts self n order edition max_attempts w = (Raise e, w') →
  saved_images w' = saved_images w ∧ saved_json w' = saved_json w
  ∧ stdout w' = stdout w ∧ clock_pos w' = clock_pos w
  ∧ (generated_dnas w' = generated_dnas w
     ∨ ∃ k, (k < n)%nat
            ∧ ¬ collides self order w k
            ∧ generated_dnas w'
              = {[_generate_dna_hash
                    (fst (select_layers self order (Nat.iter k (reselect self order) w)))]}
                ∪ generated_dnas w).
Proof.
  intros [(Hr & -> & _) | (k & Hk & _ & Hnew & res & w3 & Hc & Hres)]%attempts_inv.
  - destruct (iter_reselect_frame self order n w) as (Hreg & Hclock & Himg & Hjson & Hout).
    split_and!; try done. by left.
  - destruct res as [p|e']; [by destruct Hres|]. destruct Hres as ([= ->] & ->).
    apply composite_Raise_inv in Hc as ->.
    destruct (iter_reselect_frame self order (S k) w) as (Hreg & Hclock & Himg & Hjson & Hout).
    cbn -[Nat.iter]. split_and!; try done.
    right. exists k. split_and!; [done|done|]. by rewrite Hreg.
Qed.

End CallEffects.

(** X9. A call of [generate_character] that returns a character has
    saved exactly one image, a GIF or a PNG, under
    [<output>/images/<edition>.<ext>], written the returned dictionary to
    [<output>/json/<edition>.json], printed one line and read the clock
    once; the dictionary carries the collection's name with the edition
    number, the description and compiler tag of the configuration, the
    edition, the time read, and the image URI
    [<ipfs_base_uri><edition>.<ext>] with the extension of the image
    that was saved. *)
Theorem returned_character_is_the_one_written_out
    (self : CharacterGenerator) (order : list string) (edition max_attempts : Z)
    (w w' : world) (md : metadata) :
  generate_character self order edition max_attempts w = (Ok md, w') →
  ∃ ext a line,
    (ext = "png" ∨ ext = "gif")
    ∧ name md = collection_name (cfg self) ++ " #" ++ PyStr.of_int edition
    ∧ description md = collection_description (cfg self)
    ∧ compiler md = compiler_tag (cfg self)
    ∧ edition_no md = edition
    ∧ image_uri md = ipfs_base_uri (cfg self) ++ PyStr.of_int edition ++ "." ++ ext
    ∧ date md = now_ms (os self) (clock_pos w)
    ∧ saved_images w'
      = (saved_images w
           ++ [(OsPath.join3 (output_dir self) "images" (PyStr.of_int edition ++ "." ++ ext),
                a)])%list
    ∧ (ext = "gif" ↔ ∃ first rest duration, a = SavedGif first rest duration 0)
    ∧ saved_json w'
      = (saved_json w
           ++ [(OsPath.join3 (output_dir self) "json" (PyStr.of_int edition ++ ".json"),
                md)])%list
    ∧ stdout w' = (stdout w ++ [line])%list
    ∧ clock_pos w' = S (clock_pos w).
Proof. apply attempts_Ok_effects. Qed.

(** X9 at a concrete input: edition 2 of the catalogue, with the
    animated background. *)
Lemma returned_character_is_the_one_written_out_witness :
  let self := Fixtures.gen Fixtures.three_layers 3 10 [1; 1]%nat in
  let run := generate_character self Fixtures.three_layers 2 10 fresh in
  let md := match fst run with
            | Ok md => md
            | Raise _ => Metadata "" "" "" "" 0 0 [] ""
            end in
  name md = "Robots #2"
  ∧ ∃ ext a,
      image_uri md = "ipfs://base/2." ++ ext
      ∧ saved_images (snd run) = [("output/images/2." ++ ext, a)]
      ∧ saved_json (snd run) = [("output/json/2.json", md)].
Proof.
  intros self run md.
  destruct (returned_character_is_the_one_written_out self Fixtures.three_layers 2 10 fresh
              (snd run) md)
    as (ext & a & line & _ & Hname & _ & _ & _ & Huri & _ & Himg & _ & Hjson & _).
  { vm_compute. reflexivity. }
  split; [exact Hname|]. exists ext, a. split_and!.
  - exact Huri.
  - exact Himg.
  - exact Hjson.
Defined.

(** X11. A call of [generate_character] that raises has saved no image
    and no metadata, printed nothing and not read the clock. The
    registry is as it was, or holds exactly one DNA more than before: a
    DNA it did not hold, that of the selection of one of the attempts. *)
Theorem failed_call_writes_nothing
    (self : CharacterGenerator) (order : list string) (edition max_attempts : Z)
    (w w' : world) (e : exn) :
  generate_character self order edition max_attempts w = (Raise e, w') →
  saved_images w' = saved_images w ∧ saved_json w' = saved_json w
  ∧ stdout w' = stdout w ∧ clock_pos w' = clock_pos w
  ∧ (generated_dnas w' = generated_dnas w
     ∨ ∃ k, (k < Z.to_nat max_attempts)%nat
            ∧ ¬ collides self order w k
            ∧ generated_dnas w'
              = {[_generate_dna_hash
                    (fst (select_layers self order (Nat.iter k (reselect self order) w)))]}
                ∪ generated_dnas w).
Proof. apply attempts_Raise_effects. Qed.

(** X11 at a concrete input: the selected body file is not an image. *)
Lemma failed_call_writes_nothing_witness :
  let self := Fixtures.broken 3 4 [1; 1]%nat in
  let run := generate_character self Fixtures.three_layers 1 4 fresh in
  saved_images (snd run) = [] ∧ saved_json (snd run) = [] ∧ stdout (snd run) = [].
Proof.
  intros self run.
  destruct (failed_call_writes_nothing self Fixtures.three_layers 1 4 fresh (snd run)
              (OSError "nft_layers/Body/cat.PNG"))
    as (Himg & Hjson & Hout & _).
  { vm_compute. reflexivity. }
  by split_and!.
Defined.

(** ** What a run of [generate_collection] leaves behind *)

Section RunEffects.
Context (self : CharacterGenerator).
Implicit Types (order : list string) (max_attempts : Z) (w : world).

Lemma size_add_new (d : string) (X : gset string) :
  d ∉ X → size ({[d]} ∪ X) = S (size X).
Proof.
  intros Hd. rewrite size_union by set_solver. by rewrite size_singleton.
Qed.

Lemma size_after_raise order edition max_attempts n w e w' :
  attempts self n order edition max_attempts w = (Raise e, w') →
  size (generated_dnas w') = size (generated_dnas w)
  ∨ size (generated_dnas w') = S (size (generated_dnas w)).
Proof.
  intros Hgc. apply attempts_Raise_registry in Hgc as [->|(d & Hd & ->)]; [by left|right].
  by apply size_add_new.
Qed.

(** The loop, when it ends normally: the characters added are those of
    the first editions left to do, each written to its own files; the
    registry has grown by their DNAs, and by one more if a [ValueError]
    raised while compositing ended the loop. *)
Lemma collect_effects todo order max_attempts acc w mds w' :
  collect self todo order max_attempts acc w = (Ok mds, w') →
  ∃ new,
    mds = (acc ++ new)%list
    ∧ (length new ≤ length todo)%nat
    ∧ map edition_no new = take (length new) todo
    ∧ saved_json w' = (saved_json w ++ map (json_entry self) new)%list
    ∧ length (saved_images w') = (length (saved_images w) + length new)%nat
    ∧ (size (generated_dnas w') = (size (generated_dnas w) + length new)%nat
       ∨ size (generated_dnas w') = S (size (generated_dnas w) + length new))
    ∧ clock_pos w' = (clock_pos w + length new)%nat.
Proof.
  revert acc w. induction todo as [|edition rest IH]; intros acc w; cbn [collect].
  - intros [= <- <-]. exists []. rewrite !app_nil_r. simpl.
    split_and!; try done; lia.
  - destruct (generate_character self order edition max_attempts w) as [[md|e] w1] eqn:Hgc.
    + intros (new & -> & Hlen & Heds & Hjson & Himg & Hreg & Hclock)%IH.
      pose proof (attempts_Ok self _ _ _ _ _ _ _ Hgc) as [Hnew Hadd].
      apply attempts_Ok_effects in Hgc
        as (ext & a & line & _ & _ & _ & _ & Hed & _ & _ & Himg1 & _ & Hjson1 & _ & Hclock1).
      exists (md :: new). cbn [length map take print saved_json saved_images generated_dnas
                                clock_pos] in *.
      rewrite Hadd, size_add_new in Hreg by done.
      rewrite Hjson, Hjson1, Himg, Himg1, Hclock, Hclock1, Heds, Hed.
      rewrite length_app, <- !app_assoc. simpl.
      split_and!; try done; try lia. unfold json_entry. by rewrite Hed.
    + destruct e as [msg| | | |]; try done. intros [= <- <-].
      pose proof (size_after_raise _ _ _ _ _ _ _ Hgc) as Hsize.
      apply attempts_Raise_effects in Hgc as (Himg & Hjson & _ & Hclock & _).
      exists []. rewrite !app_nil_r. cbn [length map take print saved_json saved_images
                                           generated_dnas clock_pos].
      rewrite Himg, Hjson, Hclock. split_and!; try done; lia.
Qed.

(** The loop, when an exception gets through. *)
Lemma collect_Raise_effects todo order max_attempts acc w e w' :
  collect self todo order max_attempts acc w = (Raise e, w') →
  (∀ msg, e ≠ ValueError msg)
  ∧ ∃ new,
      (length new < length todo)%nat
      ∧ map edition_no new = take (length new) todo
      ∧ saved_json w' = (saved_json w ++ map (json_entry self) new)%list
      ∧ length (saved_images w') = (length (saved_images w) + length new)%nat
      ∧ (size (generated_dnas w') = (size (generated_dnas w) + length new)%nat
         ∨ size (generated_dnas w') = S (size (generated_dnas w) + length new)).
Proof.
  revert acc w. induction todo as [|edition rest IH]; intros acc w; cbn [collect]; [done|].
  destruct (generate_character self order edition max_attempts w) as [[md|e0] w1] eqn:Hgc.
  - intros (Hne & new & Hlen & Heds & Hjson & Himg & Hreg)%IH. split; [done|].
    pose proof (attempts_Ok self _ _ _ _ _ _ _ Hgc) as [Hnew Hadd].
    apply attempts_Ok_effects in Hgc
      as (ext & a & line & _ & _ & _ & _ & Hed & _ & _ & Himg1 & _ & Hjson1 & _).
    exists (md :: new). cbn [length map take print saved_json saved_images generated_dnas] in *.
    rewrite Hadd, size_add_new in Hreg by done.
    rewrite Hjson, Hjson1, Himg, Himg1, Heds, Hed.
    rewrite length_app, <- !app_assoc. simpl.
    split_and!; try done; try lia. unfold json_entry. by rewrite Hed.
  - destruct e0 as [msg|msg|msg|file|class_name msg]; [done|..]; intros [= <- <-];
      pose proof (size_after_raise _ _ _ _ _ _ _ Hgc) as Hsize;
      apply attempts_Raise_effects in Hgc as (Himg & Hjson & _);
      (split; [done|]); exists []; rewrite app_nil_r, Himg, Hjson;
      simpl; split_and!; try done; lia.
Qed.

Lemma take_editions (n : nat) (total : Z) :
  (n ≤ Z.to_nat total)%nat → take n (editions total) = editions (Z.of_nat n).
Proof.
  intros Hn. unfold editions. rewrite <- fmap_take, take_seq, Nat2Z.id.
  by rewrite Nat.min_l.
Qed.

Lemma length_editions (total : Z) : length (editions total) = Z.to_nat total.
Proof. unfold editions. by rewrite length_map, length_seq. Qed.

End RunEffects.

(** X12. The characters [generate_collection] returns are those of the
    editions 1, 2, ..., N in this order, for some N that is at most
    [total_characters]: the list never has a gap and never goes past the
    total. *)
Theorem collection_returns_the_first_editions
    (self : CharacterGenerator) (w w' : world) (mds : list metadata) :
  generate_collection self w = (Ok mds, w') →
  (length mds ≤ Z.to_nat (total_characters (cfg self)))%nat
  ∧ map edition_no mds = editions (Z.of_nat (length mds)).
Proof.
  intros (new & -> & Hlen & Heds & _)%collect_effects.
  rewrite length_editions in Hlen. simpl. split; [done|].
  by rewrite Heds, take_editions.
Qed.

(** X12 at a concrete input. *)
Lemma collection_returns_the_first_editions_witness :
  let self := Fixtures.lone 3 4 in
  map edition_no (returned (generate_collection self fresh)) = [1].
Proof.
  intros self.
  destruct (collection_returns_the_first_editions self fresh
              (snd (generate_collection self fresh))
              (returned (generate_collection self fresh))) as [_ Heds].
  { vm_compute. reflexivity. }
  rewrite Heds. vm_compute. reflexivity.
Defined.

(** X13. When [generate_collection] returns, what it wrote matches what
    it returns: one metadata file per returned character, in order, each
    under [<output>/json/<edition>.json] and holding the returned
    dictionary; one image saved per character; one reading of the clock
    per character. *)
Theorem collection_writes_what_it_returns
    (self : CharacterGenerator) (w w' : world) (mds : list metadata) :
  generate_collection self w = (Ok mds, w') →
  saved_json w'
  = (saved_json w
       ++ map (fun md => (OsPath.join3 (output_dir self) "json"
                                       (PyStr.of_int (edition_no md) ++ ".json"), md))
              mds)%list
  ∧ length (saved_images w') = (length (saved_images w) + length mds)%nat
  ∧ clock_pos w' = (clock_pos w + length mds)%nat.
Proof.
  intros (new & -> & _ & _ & Hjson & Himg & _ & Hclock)%collect_effects. by split_and!.
Qed.

(** X13 at a concrete input. *)
Lemma collection_writes_what_it_returns_witness :
  let self := Fixtures.gen Fixtures.three_layers 3 10 [0; 0; 1; 1; 0; 1]%nat in
  map fst (saved_json (snd (generate_collection self fresh)))
  = ["output/json/1.json"; "output/json/2.json"; "output/json/3.json"]
  ∧ map snd (saved_json (snd (generate_collection self fresh)))
    = returned (generate_collection self fresh)
  ∧ length (saved_images (snd (generate_collection self fresh))) = 3%nat.
Proof.
  intros self.
  destruct (collection_writes_what_it_returns self fresh
              (snd (generate_collection self fresh))
              (returned (generate_collection self fresh))) as (Hjson & Himg & _).
  { vm_compute. reflexivity. }
  rewrite Hjson, Himg. split_and!; vm_compute; reflexivity.
Defined.

(** X14. When [generate_collection] itself raises, the exception is not
    a [ValueError] (those are caught). The characters of the editions
    1..N before the failing one, N below the total, are not returned but
    stay written: their metadata files and images are there, and the
    registry has grown by their N DNAs, and by at most one more, that of
    a selection registered before the exception was raised. *)
Theorem collection_raise_leaves_the_earlier_editions_written
    (self : CharacterGenerator) (w w' : world) (e : exn) :
  generate_collection self w = (Raise e, w') →
  (∀ msg, e ≠ ValueError msg)
  ∧ ∃ written,
      (length written < Z.to_nat (total_characters (cfg self)))%nat
      ∧ map edition_no written = editions (Z.of_nat (length written))
      ∧ saved_json w'
        = (saved_json w
             ++ map (fun md => (OsPath.join3 (output_dir self) "json"
                                             (PyStr.of_int (edition_no md) ++ ".json"), md))
                    written)%list
      ∧ length (saved_images w') = (length (saved_images w) + length written)%nat
      ∧ (size (generated_dnas w') = (size (generated_dnas w) + length written)%nat
         ∨ size (generated_dnas w') = S (size (generated_dnas w) + length written)).
Proof.
  intros (Hne & new & Hlen & Heds & Hjson & Himg & Hreg)%collect_Raise_effects.
  rewrite length_editions in Hlen. split; [done|]. exists new.
  split_and!; try done. rewrite Heds, take_editions; [done | lia].
Qed.

(** X14 at a concrete input: edition 1 is made, edition 2 selects the
    file that is not an image. *)
Lemma collection_raise_leaves_the_earlier_editions_written_witness :
  let self := Fixtures.half_broken 3 10 [0; 0; 0; 1]%nat in
  fst (generate_collection self fresh) = Raise (OSError "nft_layers/Body/cat.PNG")
  ∧ ∃ written,
      (length written < 3)%nat
      ∧ saved_json (snd (generate_collection self fresh))
        = map (fun md => (OsPath.join3 "output" "json"
                                       (PyStr.of_int (edition_no md) ++ ".json"), md))
              written
      ∧ length (saved_images (snd (generate_collection self fresh))) = length written.
Proof.
  intros self. split; [vm_compute; reflexivity|].
  destruct (collection_raise_leaves_the_earlier_editions_written self fresh
              (snd (generate_collection self fresh))
              (OSError "nft_layers/Body/cat.PNG"))
    as (_ & written & Hlen & _ & Hjson & Himg & _).
  { vm_compute. reflexivity. }
  exists written. split_and!.
  - exact Hlen.
  - exact Hjson.
  - exact Himg.
Defined.

(** X15. Degenerate settings give an empty collection: with
    [total_characters] at most 0 [generate_collection] returns the empty
    list and does nothing; with a positive total and [max_generation_attempts]
    at most 0 it returns the empty list after printing the exhaustion
    error for edition 1, without selecting anything. *)
Theorem degenerate_settings_give_an_empty_collection
    (self : CharacterGenerator) (w : world) :
  (total_characters (cfg self) ≤ 0 → generate_collection self w = (Ok [], w))
  ∧ (0 < total_characters (cfg self) → max_generation_attempts (cfg self) ≤ 0 →
     generate_collection self w
     = (Ok [],
        print ("Error generating character #1: Could not generate a unique character after "
                 ++ PyStr.of_int (max_generation_attempts (cfg self)) ++ " attempts") w)).
Proof.
  unfold generate_collection, editions. split.
  - intros Htotal. by replace (Z.to_nat (total_characters (cfg self))) with 0%nat by lia.
  - intros Htotal Hmax.
    destruct (Z.to_nat (total_characters (cfg self))) as [|n] eqn:Hn; [lia|].
    cbn [seq map collect]. unfold generate_character.
    by replace (Z.to_nat (max_generation_attempts (cfg self))) with 0%nat by lia.
Qed.

(** X15 at concrete inputs: no edition asked for; no attempt allowed. *)
Lemma degenerate_settings_give_an_empty_collection_witness :
  generate_collection (Fixtures.lone 0 5) fresh = (Ok [], fresh)
  ∧ generate_collection (Fixtures.lone 2 0) fresh
    = (Ok [],
       print "Error generating character #1: Could not generate a unique character after 0 attempts"
             fresh).
Proof.
  split.
  - apply (degenerate_settings_give_an_empty_collection (Fixtures.lone 0 5) fresh). simpl. lia.
  - apply (degenerate_settings_give_an_empty_collection (Fixtures.lone 2 0) fresh);
      simpl; lia.
Defined.

(** ** No character without a background *)

Section BackgroundNeeded.
Context (self : CharacterGenerator).
Implicit Types (order : list string) (selected_layers : dict layer_file) (w : world).

Lemma composite_Ok_background selected_layers edition w p w3 :
  composite self selected_layers edition w = (Ok p, w3) →
  is_Some (dict_get selected_layers "Background").
Proof.
  unfold composite. destruct (dict_get selected_layers "Background") eqn:Hbg; [by eexists|].
  intros (b & _ & Hb & _)%png_path_saves_png. congruence.
Qed.

Lemma selection_key order w layer layer_file :
  dict_get (fst (select_layers self order w)) layer = Some layer_file →
  layer ∈ order ∧ has_files self layer = true.
Proof.
  intros Hget.
  assert (layer ∈ keys (fst (select_layers self order w))) as Hin.
  { destruct (decide (layer ∈ keys (fst (select_layers self order w)))) as [|Hn]; [done|].
    apply dict_get_None in Hn. congruence. }
  unfold select_layers in Hin. rewrite select_into_keys in Hin.
  apply elem_of_selected_keys in Hin as [[]%elem_of_nil|]. done.
Qed.

Lemma attributes_of_has order selected_layers layer layer_file :
  layer ∈ order → dict_get selected_layers layer = Some layer_file →
  (layer, fst (OsPath.splitext (filename layer_file))) ∈ attributes_of order selected_layers.
Proof.
  intros Hin Hget. induction order as [|l rest IH]; [by apply elem_of_nil in Hin|].
  cbn [attributes_of]. apply elem_of_cons in Hin as [<-|Hin].
  - rewrite Hget. left.
  - destruct (dict_get selected_layers l); [right|]; by apply IH.
Qed.

End BackgroundNeeded.

(** X16. No character is made without a background: whenever
    [generate_character] returns, ['Background'] is listed in the layer
    order, its directory holds an eligible file, and the returned
    attributes have an entry with the trait type ['Background']. A
    configuration that leaves the background out never yields a
    character. *)
Theorem every_character_has_a_background
    (self : CharacterGenerator) (order : list string) (edition max_attempts : Z)
    (w w' : world) (md : metadata) :
  generate_character self order edition max_attempts w = (Ok md, w') →
  "Background" ∈ order
  ∧ has_files self "Background" = true
  ∧ ∃ value, ("Background", value) ∈ attributes md.
Proof.
  intros [(Hr & _) | (k & _ & _ & _ & res & w3 & Hc & Hres)]%attempts_inv; [done|].
  destruct res as [p|e]; [|by destruct Hres]. destruct Hres as ([= ->] & _).
  apply composite_Ok_background in Hc as [background Hbg].
  destruct (selection_key self _ _ _ _ Hbg) as [Hin Hfiles].
  split_and!; [done..|]. eexists. cbn [attributes metadata_for].
  by apply attributes_of_has.
Qed.

(** X16 at a concrete input. *)
Lemma every_character_has_a_background_witness :
  let self := Fixtures.gen Fixtures.three_layers 1 10 [0; 1]%nat in
  ∃ value,
    ("Background", value)
    ∈ attributes (match fst (generate_character self Fixtures.three_layers 1 10 fresh) with
                  | Ok md => md
                  | Raise _ => Metadata "" "" "" "" 0 0 [] ""
                  end).
Proof.
  intros self.
  destruct (every_character_has_a_background self Fixtures.three_layers 1 10 fresh
              (snd (generate_character self Fixtures.three_layers 1 10 fresh))
              (match fst (generate_character self Fixtures.three_layers 1 10 fresh) with
               | Ok md => md
               | Raise _ => Metadata "" "" "" "" 0 0 [] ""
               end))
    as (_ & _ & Hattr).
  { vm_compute. reflexivity. }
  exact Hattr.
Defined.

(** X17. A run of [main] that ends normally has written, for some N at
    most [total_characters], the metadata of the editions 1..N to
    [<output>/json/1.json] .. [<output>/json/N.json] and saved N images;
    the N characters written have pairwise different DNAs, which the
    registry holds, with at most one DNA besides; the registry holds
    exactly these N DNAs when all [total_characters] editions were
    written, and whenever no file makes Pillow raise a [ValueError]. *)
Theorem main_writes_distinct_characters
    (c : config) (e : environment) (w : world) :
  main c e = (Ok tt, w) →
  ∃ mds,
    (length mds ≤ Z.to_nat (total_characters c))%nat
    ∧ map edition_no mds = editions (Z.of_nat (length mds))
    ∧ saved_json w
      = map (fun md => (OsPath.join3 (output_dir (Generator c e)) "json"
                                     (PyStr.of_int (edition_no md) ++ ".json"), md)) mds
    ∧ length (saved_images w) = length mds
    ∧ NoDup (map dna mds)
    ∧ (∀ d, d ∈ map dna mds → d ∈ generated_dnas w)
    ∧ (size (generated_dnas w) = length mds ∨ size (generated_dnas w) = S (length mds))
    ∧ (length mds = Z.to_nat (total_characters c)
       ∨ pillow_raises_no_value_error (Generator c e) →
       ∀ d, d ∈ generated_dnas w ↔ d ∈ map dna mds).
Proof.
  unfold main, __init__.
  destruct (generate_collection (Generator c e) fresh) as [[mds|exc] w1] eqn:Hrun; [|done].
  intros [= <-]. exists mds.
  pose proof (collect_registry _ _ _ _ _ _ _ _ (registry_matches_fresh) Hrun) as Hinv.
  simpl in Hinv. rewrite length_editions in Hinv.
  assert (pillow_raises_no_value_error (Generator c e) → registry_matches mds w1) as Hno.
  { intros Hno.
    exact (collect_registry_matches _ _ _ _ _ _ _ _ Hno registry_matches_fresh Hrun). }
  apply collect_effects in Hrun as (new & -> & Hlen & Heds & Hjson & Himg & _).
  rewrite length_editions in Hlen. simpl in *.
  split_and!; try done.
  - by rewrite Heds, take_editions.
  - destruct Hinv as [[Hnd _]|[[Hnd _] _]]; exact Hnd.
  - intros d Hd. destruct Hinv as [[_ Hiff]|[[_ (d0 & _ & Hiff)] _]]; apply Hiff; tauto.
  - destruct Hinv as [Hm|[Ha _]].
    + left. by apply registry_matches_size.
    + right. by apply registry_one_ahead_size.
  - intros [Hall|Hpil]; [|by apply Hno].
    destruct Hinv as [Hm|[_ Hlt]]; [apply Hm | lia].
Qed.

(** X17 at a concrete input. *)
Lemma main_writes_distinct_characters_witness :
  let c := Fixtures.settings Fixtures.three_layers 3 10 in
  let e := Environment (dict_get Fixtures.tree) (dict_get Fixtures.files)
                       (fun k => nth k [0; 0; 1; 1; 0; 1]%nat 0%nat) Fixtures.clock
                       Fixtures.unreadable in
  ∃ mds,
    saved_json (snd (main c e))
    = map (fun md => (OsPath.join3 "output" "json"
                                   (PyStr.of_int (edition_no md) ++ ".json"), md)) mds
    ∧ map edition_no mds = editions (Z.of_nat (length mds))
    ∧ length (saved_images (snd (main c e))) = length mds
    ∧ NoDup (map dna mds).
Proof.
  intros c e.
  destruct (main_writes_distinct_characters c e (snd (main c e)))
    as (mds & _ & Heds & Hjson & Himg & Hnd & _).
  { vm_compute. reflexivity. }
  exists mds. split_and!; [exact Hjson | exact Heds | exact Himg | exact Hnd].
Defined.

(** ** The last line a run prints *)

Section LastLine.
Context (self : CharacterGenerator).
Implicit Types (order : list string) (max_attempts : Z) (w : world).

Lemma collect_last_line todo order max_attempts acc w mds w' :
  todo ≠ [] →
  collect self todo order max_attempts acc w = (Ok mds, w') →
  ∃ new,
    mds = (acc ++ new)%list
    ∧ ((length new = length todo
        ∧ ∃ edition, last todo = Some edition
            ∧ last (stdout w') = Some ("Generated character #" ++ PyStr.of_int edition))
       ∨ ((length new < length todo)%nat
          ∧ ∃ msg wk wk',
              generate_character self order (nth (length new) todo 0) max_attempts wk
              = (Raise (ValueError msg), wk')
              ∧ w' = print ("Error generating character #"
                              ++ PyStr.of_int (nth (length new) todo 0) ++ ": " ++ msg) wk'
              ∧ last (stdout w')
                = Some ("Error generating character #"
                          ++ PyStr.of_int (nth (length new) todo 0) ++ ": " ++ msg))).
Proof.
  revert acc w. induction todo as [|edition rest IH]; intros acc w Hne; [done|].
  cbn [collect].
  destruct (generate_character self order edition max_attempts w) as [[md|e] w1] eqn:Hgc.
  - destruct rest as [|next rest'].
    + cbn [collect]. intros [= <- <-]. exists [md]. split; [done|]. left.
      split; [done|]. exists edition. split; [done|]. cbn [print stdout]. apply last_snoc.
    + intros (new & -> & Hcases)%IH; [|done]. exists (md :: new).
      split; [by rewrite <- app_assoc|].
      destruct Hcases as [(Hlen & ed & Hlast & Hline) | (Hlen & msg & wk & wk' & Hcall)].
      * left. split; [simpl in *; lia|]. exists ed. split; [|done].
        by rewrite last_cons, Hlast.
      * right. split; [simpl in *; lia|]. exists msg, wk, wk'. exact Hcall.
  - destruct e as [msg| | | |]; try done. intros [= <- <-]. exists [].
    split; [by rewrite app_nil_r|]. right. split; [simpl; lia|].
    exists msg, w, w1. cbn [length nth]. split_and!; [exact Hgc | reflexivity |].
    cbn [print stdout]. apply last_snoc.
Qed.

Lemma last_editions (total : Z) : 0 < total → last (editions total) = Some total.
Proof.
  intros Htotal. unfold editions.
  replace (Z.to_nat total) with (S (Z.to_nat total - 1)) by lia.
  rewrite seq_S, map_app. cbn [map]. rewrite last_snoc. f_equal. lia.
Qed.

Lemma nth_editions (n : nat) (total : Z) :
  (n < Z.to_nat total)%nat → nth n (editions total) 0 = Z.of_nat (S n).
Proof.
  intros Hn. unfold editions. change 0 with (Z.of_nat 0).
  rewrite map_nth, seq_nth by done. f_equal.
Qed.

End LastLine.

(** X18. How a run that returns ended can be read off its last printed
    line. With a positive total, either all [total_characters] editions
    were made and the last line is [Generated character #<total>], or
    fewer were made, N say, and the last line is the error line for
    edition N+1: it carries the message of the [ValueError] that the call
    of [generate_character] for that edition raised, and nothing is done
    after it is printed. *)
Theorem collection_last_line_tells_how_it_ended
    (self : CharacterGenerator) (w w' : world) (mds : list metadata) :
  0 < total_characters (cfg self) →
  generate_collection self w = (Ok mds, w') →
  (length mds = Z.to_nat (total_characters (cfg self))
   ∧ last (stdout w')
     = Some ("Generated character #" ++ PyStr.of_int (total_characters (cfg self))))
  ∨ ((length mds < Z.to_nat (total_characters (cfg self)))%nat
     ∧ ∃ msg wk wk',
         generate_character self (default [] (layers_order (cfg self)))
                            (Z.of_nat (S (length mds)))
                            (max_generation_attempts (cfg self)) wk
         = (Raise (ValueError msg), wk')
         ∧ w' = print ("Error generating character #"
                         ++ PyStr.of_int (Z.of_nat (S (length mds))) ++ ": " ++ msg) wk'
         ∧ last (stdout w')
           = Some ("Error generating character #"
                     ++ PyStr.of_int (Z.of_nat (S (length mds))) ++ ": " ++ msg)).
Proof.
  intros Htotal Hrun. apply collect_last_line in Hrun as (new & -> & Hcases).
  - rewrite length_editions in Hcases. cbn [app].
    destruct Hcases as [(Hlen & ed & Hlast & Hline) | (Hlen & msg & wk & wk' & Hcall)].
    + left. split; [done|]. rewrite last_editions in Hlast by done.
      injection Hlast as <-. exact Hline.
    + right. split; [done|]. exists msg, wk, wk'.
      by rewrite nth_editions in Hcall.
  - intros Hnil. apply (f_equal length) in Hnil. rewrite length_editions in Hnil.
    simpl in Hnil. lia.
Qed.

(** X18 at a concrete input: three editions asked of a catalogue with a
    single combination. *)
Lemma collection_last_line_tells_how_it_ended_witness :
  let self := Fixtures.lone 3 4 in
  ∃ msg,
    last (stdout (snd (generate_collection self fresh)))
    = Some ("Error generating character #2: " ++ msg).
Proof.
  intros self.
  destruct (collection_last_line_tells_how_it_ended self fresh
              (snd (generate_collection self fresh))
              (returned (generate_collection self fresh)))
    as [[Hlen _] | [_ (msg & _ & _ & _ & _ & Hline)]].
  - simpl. lia.
  - vm_compute. reflexivity.
  - vm_compute in Hlen. discriminate Hlen.
  - exists msg. rewrite Hline. vm_compute. reflexivity.
Defined.

(** ** One file per edition *)

Section OutputPaths.
Context (self : CharacterGenerator).

Lemma string_app_inv_head (a x y : string) : a ++ x = a ++ y → x = y.
Proof.
  induction a as [|c a IH]; [done|]. rewrite !string_app_cons. intros [= H]. by apply IH.
Qed.

Lemma string_app_inv_tail (x y s : string) : x ++ s = y ++ s → x = y.
Proof.
  revert y. induction x as [|c x IH]; intros [|d y] H.
  - done.
  - apply (f_equal String.length) in H.
    rewrite string_app_cons, string_app_nil_l in H. simpl in H.
    rewrite string_length_app in H. lia.
  - apply (f_equal String.length) in H.
    rewrite string_app_cons, string_app_nil_l in H. simpl in H.
    rewrite string_length_app in H. lia.
  - rewrite !string_app_cons in H. injection H as -> H. f_equal. by apply IH.
Qed.

(** [str(n)] starts with a digit or a minus sign, never with a slash. *)
Lemma of_int_not_absolute (n : Z) (s : string) :
  PyStr.startswith "/" (PyStr.of_int n ++ s) = false.
Proof.
  unfold PyStr.of_int. by destruct (Z.to_int n) as [[]|[]].
Qed.

Lemma of_int_inj (a b : Z) : PyStr.of_int a = PyStr.of_int b → a = b.
Proof.
  unfold PyStr.of_int. intros H. apply DecimalZ.to_int_inj.
  assert (∀ z, NilZero.int_of_string (NilZero.string_of_int (Z.to_int z)) = Some (Z.to_int z))
    as Hback.
  { intros z. apply NilZero.isi; destruct z; simpl; try discriminate;
      intros [= Hnil]; by apply DecimalPos.Unsigned.to_uint_nonnil in Hnil. }
  apply (f_equal NilZero.int_of_string) in H. rewrite !Hback in H. by injection H.
Qed.

(** Joining a directory with a name that is not absolute puts the name
    after a prefix that depends on the directory only. *)
Lemma join_relative (a b : string) :
  PyStr.startswith "/" b = false →
  OsPath.join a b
  = (if (String.eqb a "" || PyStr.endswith "/" a)%bool then a else a ++ "/") ++ b.
Proof.
  intros Hb. unfold OsPath.join. rewrite Hb.
  destruct (_ || _)%bool; [done|]. by rewrite string_app_assoc.
Qed.

Lemma json_path_inj (a b : Z) : json_path self a = json_path self b → a = b.
Proof.
  unfold json_path, OsPath.join3.
  rewrite (join_relative _ (PyStr.of_int a ++ ".json")) by apply of_int_not_absolute.
  rewrite (join_relative _ (PyStr.of_int b ++ ".json")) by apply of_int_not_absolute.
  intros H%string_app_inv_head%string_app_inv_tail. by apply of_int_inj.
Qed.

Lemma NoDup_editions (total : Z) : NoDup (editions total).
Proof.
  unfold editions. apply NoDup_fmap_2; [intros x y; apply Nat2Z.inj | apply NoDup_seq].
Qed.

End OutputPaths.

(** X19. The metadata files of different editions are different files:
    [<output>/json/<edition>.json] determines the edition, whatever the
    output directory is. So a run of [generate_collection] that starts
    with nothing written and returns has written every metadata file
    once: no file is written twice. *)
Theorem collection_writes_each_metadata_file_once
    (self : CharacterGenerator) (w w' : world) (mds : list metadata) :
  saved_json w = [] →
  generate_collection self w = (Ok mds, w') →
  NoDup (map fst (saved_json w'))
  ∧ ∀ a b : Z,
      OsPath.join3 (output_dir self) "json" (PyStr.of_int a ++ ".json")
      = OsPath.join3 (output_dir self) "json" (PyStr.of_int b ++ ".json") →
      a = b.
Proof.
  intros Hempty Hrun. split; [|apply json_path_inj].
  pose proof (collect_effects self _ _ _ _ _ _ _ Hrun)
    as (new & -> & Hlen & Heds & Hjson & _).
  rewrite Hjson, Hempty. cbn [app]. rewrite map_map. cbn [json_entry fst].
  rewrite <- (map_map edition_no (json_path self)), Heds.
  apply NoDup_fmap_2; [intros a b; apply json_path_inj|].
  rewrite length_editions in Hlen. rewrite take_editions by done. apply NoDup_editions.
Qed.

(** X19 at a concrete input. *)
Lemma collection_writes_each_metadata_file_once_witness :
  let self := Fixtures.gen Fixtures.three_layers 3 10 [0; 0; 1; 1; 0; 1]%nat in
  NoDup (map fst (saved_json (snd (generate_collection self fresh)))).
Proof.
  intros self.
  destruct (collection_writes_each_metadata_file_once self fresh
              (snd (generate_collection self fresh))
              (returned (generate_collection self fresh))) as [Hnd _].
  - reflexivity.
  - vm_compute. reflexivity.
  - exact Hnd.
Defined.
